(** * Buildkite test collector: the payload data model and its batching

    A shallow embedding of [buildkite_test_collector/collector/payload.py]
    (TestSpan, TestHistory, TestData, Payload) and of the submission
    contract exercised by [tests/.../collector/test_api.py].

    Conventions of the embedding:
    - frozen dataclasses are records, [dataclasses.replace] is a record
      rebuilt with one field changed;
    - [Optional[X]] is [option X], a Python tuple is a [list]; where a
      field can hold a tuple or a list, it is a [PySeq];
    - the [tags] dictionary (str to str) is a [gmap string string];
    - the dictionaries built by the [as_json] methods are association
      lists in insertion order, updated with [dict_set] ([d[k] = v]);
    - code that can raise returns a [Result]; code that reads the clock or
      writes to the logger runs in the monad [M] over a [World]. *)

From Stdlib Require Import ZArith String List Lia.
From Stdlib Require QArith.QArith_base.
From stdpp Require Import base option list strings gmap fin_maps.

Import ListNotations.
#[local] Set Warnings "-register-all".
Local Open Scope string_scope.
Local Open Scope Z_scope.
Local Open Scope list_scope.

(** ** Time *)

(** [datetime.timedelta]: a whole number of microseconds. *)
Definition timedelta : Type := Z.

(** [timedelta.total_seconds()]: the duration in seconds, kept as the exact
    quotient by 10^6 (the rounding to a binary float is left out). *)
Definition total_seconds (d : timedelta) : QArith_base.Q :=
  QArith_base.Qmake d 1000000.

(** Modelled from the spec: the class [Instant] (instant.py is not among the
    sources) is a point in time on a monotonic clock, with a [now()]
    constructor and a subtraction that yields a duration.  An instant is
    represented by its reading in microseconds. *)
Definition Instant : Type := Z.

(** ** Exceptions and results *)

Inductive PyExn : Type :=
| TypeError (msg : string)
    (* raise TypeError(msg) *)
| OperandError.
    (* what [instant - None] raises: the right operand is not an Instant *)

Inductive Result (A : Type) : Type :=
| Ok (a : A)
| Raise (e : PyExn).
Arguments Ok {A} a.
Arguments Raise {A} e.

Definition bindR {A B : Type} (c : Result A) (k : A -> Result B) : Result B :=
  match c with
  | Ok a => k a
  | Raise e => Raise e
  end.

Notation "'let?' x ':=' c 'in' k" := (bindR c (fun x => k))
  (at level 10, x name, c at level 100, k at level 200).

(** [list(map(f, xs))] for an [f] that can raise: elements are converted
    from left to right and the first exception ends the traversal. *)
Fixpoint mapR {A B : Type} (f : A -> Result B) (xs : list A) : Result (list B) :=
  match xs with
  | [] => Ok []
  | x :: xs' =>
      let? y := f x in
      let? ys := mapR f xs' in
      Ok (y :: ys)
  end.

(** Modelled from the spec: [Instant.__sub__] (instant.py is not among the
    sources).  Subtracting two instants yields a duration; a right operand
    that is [None] is not an instant and the subtraction raises. *)
Definition Instant_sub (a : Instant) (b : option Instant) : Result timedelta :=
  match b with
  | Some b' => Ok (a - b')
  | None => Raise OperandError
  end.

(** ** JSON values *)

(** [TestResultFailed.failure_expanded]: a sequence of mappings from a label
    to a sequence of lines; it is handed to the encoder as it is. *)
Definition FailureExpanded : Type := list (list (string * list string)).

Inductive JsonValue : Type :=
| JNull
| JStr (s : string)
| JNum (q : QArith_base.Q)
| JList (l : list JsonValue)
| JDict (d : list (string * JsonValue))
| JTags (m : gmap string string)
| JExpanded (e : FailureExpanded).

Abbreviation JsonDict := (list (string * JsonValue)).

(** [d[k] = v] on an insertion-ordered dictionary. *)
Fixpoint dict_set (k : string) (v : JsonValue) (d : JsonDict) : JsonDict :=
  match d with
  | [] => [(k, v)]
  | (k', v') :: d' =>
      if String.eqb k' k then (k, v) :: d' else (k', v') :: dict_set k v d'
  end.

(** [d.get(k)]. *)
Fixpoint dict_get (k : string) (d : JsonDict) : option JsonValue :=
  match d with
  | [] => None
  | (k', v') :: d' => if String.eqb k' k then Some v' else dict_get k d'
  end.

(** [list(d.keys())]. *)
Definition dict_keys (d : JsonDict) : list string := map fst d.

(** The keys and the lookup of a value that is a dictionary. *)
Definition json_keys (j : JsonValue) : list string :=
  match j with
  | JDict d => dict_keys d
  | _ => []
  end.

Definition json_get (k : string) (j : JsonValue) : option JsonValue :=
  match j with
  | JDict d => dict_get k d
  | _ => None
  end.

(** [None] or a string, as a JSON value. *)
Definition json_opt_str (o : option string) : JsonValue :=
  match o with
  | Some s => JStr s
  | None => JNull
  end.

(** ** The process environment: clock, logger, transport *)

(** Modelled from the spec: a 2xx/4xx/... response of the upload endpoint
    (the [requests] library is outside the sources). *)
Record Response : Type := mkResponse {
  status_code : Z;
  response_json : JsonValue
}.

(** Modelled from the spec: one POST as the Submitter issues it. *)
Record Request : Type := mkRequest {
  req_url : string;
  req_authorization : string;
  req_json : JsonValue
}.

(** Modelled from the spec: what the transport does with one POST: the
    connect and read timeouts of [requests.exceptions], or a response. *)
Inductive Outcome : Type :=
| ConnectTimeout (msg : string)
| ReadTimeout (msg : string)
| Responded (r : Response).

Record World : Type := mkWorld {
  clock : nat -> Instant;          (* successive readings of the monotonic clock *)
  reads : nat;                     (* how many readings were taken *)
  warnings : list string;          (* lines written by logger.warning *)
  transport : nat -> Request -> Outcome;  (* outcome of the n-th POST *)
  posts : list Request             (* the POSTs issued, oldest first *)
}.

Definition M (A : Type) : Type := World -> Result A * World.

Definition ret {A : Type} (a : A) : M A := fun w => (Ok a, w).

Definition bindM {A B : Type} (c : M A) (k : A -> M B) : M B :=
  fun w =>
    match c w with
    | (Ok a, w') => k a w'
    | (Raise e, w') => (Raise e, w')
    end.

Definition lift {A : Type} (r : Result A) : M A := fun w => (r, w).

Notation "'let!' x ':=' c 'in' k" := (bindM c (fun x => k))
  (at level 10, x name, c at level 100, k at level 200).

(** [Instant.now()]. *)
Definition Instant_now : M Instant :=
  fun w =>
    (Ok (clock w (reads w)),
     mkWorld (clock w) (S (reads w)) (warnings w) (transport w) (posts w)).

(** [logger.warning(line)]. *)
Definition logger_warning (line : string) : M unit :=
  fun w =>
    (Ok tt,
     mkWorld (clock w) (reads w) (warnings w ++ [line]) (transport w) (posts w)).

(** [requests.post(...)]: the request is recorded and the transport decides. *)
Definition post (rq : Request) : M Outcome :=
  fun w =>
    (Ok (transport w (length (posts w)) rq),
     mkWorld (clock w) (reads w) (warnings w) (transport w) (posts w ++ [rq])).

(** ** TestSpan *)

Module TestSpan.

(** [Literal['http', 'sql', 'sleep', 'annotation']]. *)
Inductive Section_ : Type := http | sql | sleep | annotation.

Definition section_str (s : Section_) : string :=
  match s with
  | http => "http"
  | sql => "sql"
  | sleep => "sleep"
  | annotation => "annotation"
  end.

Record t : Type := mk {
  section : Section_;
  duration : timedelta;
  start_at : option Instant;
  end_at : option Instant;
  detail : option string
}.

Definition as_json (self : t) (started_at : option Instant) : Result JsonValue :=
  let attrs :=
    [("section", JStr (section_str (section self)));
     ("duration", JNum (total_seconds (duration self)))] in
  let attrs :=
    match detail self with
    | Some d => dict_set "detail" (JStr d) attrs
    | None => attrs
    end in
  let? attrs :=
    match start_at self with
    | Some s =>
        let? d := Instant_sub s started_at in
        Ok (dict_set "start_at" (JNum (total_seconds d)) attrs)
    | None => Ok attrs
    end in
  let? attrs :=
    match end_at self with
    | Some e =>
        let? d := Instant_sub e started_at in
        Ok (dict_set "end_at" (JNum (total_seconds d)) attrs)
    | None => Ok attrs
    end in
  Ok (JDict attrs).

End TestSpan.

(** ** Sequences *)

(** A Python sequence that is a tuple or a list: the two hold their items
    alike and are told apart by the concatenation [+]. *)
Inductive PySeq (A : Type) : Type :=
| PyTuple (items : list A)
| PyList (items : list A).
Arguments PyTuple {A} items.
Arguments PyList {A} items.

(** The items of a sequence, first to last ([list(s)]). *)
Definition seq_items {A : Type} (s : PySeq A) : list A :=
  match s with
  | PyTuple items => items
  | PyList items => items
  end.

Coercion seq_items : PySeq >-> list.

(** The message of the [TypeError] of [a_list + a_tuple]. *)
Definition concat_list_tuple_message : string :=
  ("can only concatenate list (not " ++ String (Ascii.ascii_of_nat 34) "tuple"
   ++ String (Ascii.ascii_of_nat 34) ") to list")%string.

(** [s + tuple([x])]: a tuple is extended into a new tuple; on a list the
    concatenation with a tuple raises. *)
Definition seq_add_tuple1 {A : Type} (s : PySeq A) (x : A) : Result (PySeq A) :=
  match s with
  | PyTuple items => Ok (PyTuple (items ++ [x]))
  | PyList _ => Raise (TypeError concat_list_tuple_message)
  end.

(** ** TestHistory *)

Module TestHistory.

Record t : Type := mk {
  start_at : option Instant;
  end_at : option Instant;
  duration : option timedelta;
  children : PySeq TestSpan.t
}.

Definition is_finished (self : t) : bool :=
  match end_at self with
  | Some _ => true
  | None => false
  end.

(** [replace(self, children=self.children + tuple([span]))]: [children] is
    annotated as a list and is the empty tuple by default. *)
Definition push_span (self : t) (span : TestSpan.t) : Result t :=
  let? children_ := seq_add_tuple1 (children self) span in
  Ok (mk (start_at self) (end_at self) (duration self) children_).

Definition as_json (self : t) (started_at : option Instant) : Result JsonValue :=
  let? spans := mapR (fun span => TestSpan.as_json span started_at) (children self) in
  let attrs := [("section", JStr "top"); ("children", JList spans)] in
  let? attrs :=
    match start_at self with
    | Some s =>
        let? d := Instant_sub s started_at in
        Ok (dict_set "start_at" (JNum (total_seconds d)) attrs)
    | None => Ok attrs
    end in
  let? attrs :=
    match end_at self with
    | Some e =>
        let? d := Instant_sub e started_at in
        Ok (dict_set "end_at" (JNum (total_seconds d)) attrs)
    | None => Ok attrs
    end in
  let attrs :=
    match duration self with
    | Some d => dict_set "duration" (JNum (total_seconds d)) attrs
    | None => attrs
    end in
  Ok (JDict attrs).

End TestHistory.

(** ** Test results *)

Inductive TestResult : Type :=
| TestResultPassed
| TestResultFailed (failure_reason : option string)
                   (failure_expanded : option FailureExpanded)
| TestResultSkipped.

(** The arguments a caller can hand to [tag_execution]: Python does not
    enforce the [str] annotations, the method checks them itself. *)
Inductive PyVal : Type :=
| PyNone
| PyBool (b : bool)
| PyInt (z : Z)
| PyStr (s : string).

(** [isinstance(v, str)]. *)
Definition isinstance_str (v : PyVal) : bool :=
  match v with
  | PyStr _ => true
  | _ => false
  end.

(** The text of a value that passed [isinstance(v, str)]. *)
Definition str_of (v : PyVal) : string :=
  match v with
  | PyStr s => s
  | _ => ""
  end.

(** [uuid.UUID], carried by its canonical text [str(id)]. *)
Record UUID : Type := mkUUID { uuid_str : string }.

(** ** TestData *)

Module TestData.

Record t : Type := mk {
  id : UUID;
  scope : string;
  name : string;
  history : TestHistory.t;
  location : option string;
  file_name : option string;
  tags : gmap string string;
  result : option TestResult
}.

(** [TestData.start(id, scope=..., name=..., location=..., file_name=...)]. *)
Definition start (id_ : UUID) (scope_ name_ : string)
    (location_ file_name_ : option string) : M t :=
  let! now := Instant_now in
  ret (mk id_ scope_ name_ (TestHistory.mk (Some now) None None (PyTuple []))
          location_ file_name_ ∅ None).

(** [self.history and self.history.is_finished()]: [history] is an instance
    of a dataclass that defines neither [__bool__] nor [__len__], hence
    always truthy, and the conjunction is its second operand. *)
Definition is_finished (self : t) : bool :=
  TestHistory.is_finished (history self).

Definition tag_execution (self : t) (key val : PyVal) : Result t :=
  if negb (isinstance_str key) || negb (isinstance_str val)
  then Raise (TypeError "Expected string for key and value")
  else
    let new_tags := <[str_of key := str_of val]> (tags self) in
    Ok (mk (id self) (scope self) (name self) (history self)
           (location self) (file_name self) new_tags (result self)).

Definition finish (self : t) : M t :=
  if is_finished self then ret self
  else
    let! end_at := Instant_now in
    let! duration := lift (Instant_sub end_at (TestHistory.start_at (history self))) in
    ret (mk (id self) (scope self) (name self)
            (TestHistory.mk (TestHistory.start_at (history self))
                            (Some end_at) (Some duration)
                            (TestHistory.children (history self)))
            (location self) (file_name self) (tags self) (result self)).

Definition with_result (self : t) (r : option TestResult) : t :=
  mk (id self) (scope self) (name self) (history self)
     (location self) (file_name self) (tags self) r.

Definition passed (self : t) : t := with_result self (Some TestResultPassed).

Definition failed (self : t) (failure_reason : option string)
    (failure_expanded : option FailureExpanded) : t :=
  with_result self (Some (TestResultFailed failure_reason failure_expanded)).

Definition skipped (self : t) : t := with_result self (Some TestResultSkipped).

Definition push_span (self : t) (span : TestSpan.t) : Result t :=
  let? history_ := TestHistory.push_span (history self) span in
  Ok (mk (id self) (scope self) (name self) history_
         (location self) (file_name self) (tags self) (result self)).

Definition as_json (self : t) (started_at : option Instant) : Result JsonValue :=
  let? hist := TestHistory.as_json (history self) started_at in
  let attrs :=
    [("id", JStr (uuid_str (id self)));
     ("scope", JStr (scope self));
     ("name", JStr (name self));
     ("location", json_opt_str (location self));
     ("file_name", json_opt_str (file_name self));
     ("history", hist)] in
  let attrs :=
    if (0 <? size (tags self))%nat
    then dict_set "tags" (JTags (tags self)) attrs
    else attrs in
  let attrs :=
    match result self with
    | Some TestResultPassed => dict_set "result" (JStr "passed") attrs
    | _ => attrs
    end in
  let attrs :=
    match result self with
    | Some (TestResultFailed failure_reason failure_expanded) =>
        let attrs := dict_set "result" (JStr "failed") attrs in
        let attrs :=
          match failure_reason with
          | Some r => dict_set "failure_reason" (JStr r) attrs
          | None => attrs
          end in
        match failure_expanded with
        | Some e => dict_set "failure_expanded" (JExpanded e) attrs
        | None => attrs
        end
    | _ => attrs
    end in
  let attrs :=
    match result self with
    | Some TestResultSkipped => dict_set "result" (JStr "skipped") attrs
    | _ => attrs
    end in
  Ok (JDict attrs).

End TestData.

(** ** Payload *)

(** Modelled from the spec: the run-environment descriptor (run_env.py is
    not among the sources) is an opaque value object exposing [as_json()];
    it is represented by the dictionary it encodes to. *)
Record RunEnv : Type := mkRunEnv { run_env_fields : JsonDict }.

Definition RunEnv_as_json (e : RunEnv) : JsonValue := JDict (run_env_fields e).

(** Python slicing of a tuple by an integer bound: a negative bound counts
    from the end, and every bound is clamped to the tuple. *)
Definition slice_bound {A : Type} (xs : list A) (i : Z) : nat :=
  let len := Z.of_nat (length xs) in
  Z.to_nat (if (i <? 0)%Z then Z.max 0 (len + i) else Z.min i len).

(** [xs[0:i]]. *)
Definition slice_to {A : Type} (xs : list A) (i : Z) : list A :=
  firstn (slice_bound xs i) xs.

(** [xs[i:]]. *)
Definition slice_from {A : Type} (xs : list A) (i : Z) : list A :=
  skipn (slice_bound xs i) xs.

Module Payload.

Record t : Type := mk {
  run_env : RunEnv;
  data : list TestData.t;
  started_at : option Instant;
  finished_at : option Instant
}.

Definition init (run_env_ : RunEnv) : t := mk run_env_ [] None None.

(** [replace(self, data=d)]. *)
Definition with_data (self : t) (d : list TestData.t) : t :=
  mk (run_env self) d (started_at self) (finished_at self).

Definition unfinished_warning : string :=
  "Unexpected unfinished test data, skipping unfinished test records...".

Definition as_json (self : t) : M JsonValue :=
  let finished_data := List.filter TestData.is_finished (data self) in
  let! _ :=
    if (length finished_data <? length (data self))%nat
    then logger_warning unfinished_warning
    else ret tt in
  let run_env_json := RunEnv_as_json (run_env self) in
  let! encoded :=
    lift (mapR (fun td => TestData.as_json td (started_at self)) finished_data) in
  ret (JDict [("format", JStr "json");
              ("run_env", run_env_json);
              ("data", JList encoded)]).

Definition push_test_data (self : t) (report : TestData.t) : t :=
  with_data self (data self ++ [report]).

Definition is_started (self : t) : bool :=
  match started_at self with
  | Some _ => true
  | None => false
  end.

Definition started (self : t) : M t :=
  let! now := Instant_now in
  ret (mk (run_env self) (data self) (Some now) (finished_at self)).

(** [__into_batches(data, batches, batch_size)].  The method calls itself
    once per batch; [fuel] bounds the depth of these calls and [None] is a
    recursion that did not come to an end within it. *)
Fixpoint into_batches_rec (fuel : nat) (self : t) (data_ : list TestData.t)
    (batches : list t) (batch_size : Z) : option (list t) :=
  match fuel with
  | O => None
  | S fuel' =>
      if (Z.of_nat (length data_) <=? batch_size)%Z
      then Some (batches ++ [with_data self data_])
      else
        let next_batch := slice_to data_ batch_size in
        let next_data := slice_from data_ batch_size in
        into_batches_rec fuel' self next_data
          (batches ++ [with_data self next_batch]) batch_size
  end.

(** [into_batches(batch_size)]. *)
Definition into_batches (fuel : nat) (self : t) (batch_size : Z) : option (list t) :=
  into_batches_rec fuel self (data self) [] batch_size.

End Payload.

(** ** Submitter (API) *)

Module API.

(** Modelled from the spec: the class [API] and its method [submit] (api.py
    is not among the sources; test_api.py calls them).  Section 4.5 of the
    specification: the Submitter is built from a configuration view, reads
    an upload endpoint (with a default, overridable) and a credential, and
    [submit] produces one outcome per batch, lazily. *)
Record t : Type := mk {
  token : option string;
  api_url : string
}.

(** Modelled from the spec: the default endpoint. *)
Definition default_api_url : string := "https://analytics-api.buildkite.com/v1".

(** Modelled from the spec: [API(env)], where [env] maps a variable name to
    its value or to [None] (as the dictionaries of test_api.py do). *)
Definition init (env : gmap string (option string)) : t :=
  mk (mjoin (env !! "BUILDKITE_ANALYTICS_TOKEN"))
     (default default_api_url (mjoin (env !! "BUILDKITE_ANALYTICS_API_URL"))).

(** Modelled from the spec: a string that is empty or whitespace-only. *)
Fixpoint is_blank (s : string) : bool :=
  match s with
  | EmptyString => true
  | String a s' => Ascii.is_space a && is_blank s'
  end.

(** Modelled from the spec: a credential is configured when the token is
    present and is neither empty nor whitespace-only. *)
Definition has_credential (self : t) : bool :=
  match token self with
  | Some tok => negb (is_blank tok)
  | None => false
  end.

(** Modelled from the spec: the warning line of a timeout holds the type
    name of the exception and its message. *)
Definition timeout_warning (type_name msg : string) : string :=
  (type_name ++ ": " ++ msg)%string.

(** Modelled from the spec: the POST of one batch goes to
    [<endpoint>/uploads], carries the credential as its authorization value
    and the serialized batch as its body. *)
Definition request (self : t) (body : JsonValue) : Request :=
  mkRequest (api_url self ++ "/uploads")%string (default "" (token self)) body.

(** Modelled from the spec: the steps 1 to 5 of [submit] for one batch.
    Without a credential the outcome is [None] and nothing is sent;
    otherwise the batch is serialized and one POST is issued to
    [<endpoint>/uploads]; a connect or read timeout is caught, logged at
    warning level and gives [None]; a response outside 2xx gives [None]; a
    2xx response is the outcome. *)
Definition submit_batch (self : t) (batch : Payload.t) : M (option Response) :=
  if negb (has_credential self) then ret None
  else
    let! body := Payload.as_json batch in
    let! outcome := post (request self body) in
    match outcome with
    | ConnectTimeout msg =>
        let! _ := logger_warning (timeout_warning "ConnectTimeout" msg) in
        ret None
    | ReadTimeout msg =>
        let! _ := logger_warning (timeout_warning "ReadTimeout" msg) in
        ret None
    | Responded r =>
        if (200 <=? status_code r) && (status_code r <? 300)
        then ret (Some r)
        else ret None
    end.

(** Modelled from the spec: [submit(payload, batch_size)] is a lazy sequence
    with one pending computation per batch, in the order of the batches;
    nothing runs before the caller asks for the corresponding outcome. *)
Definition submit (fuel : nat) (self : t) (payload : Payload.t) (batch_size : Z)
    : option (list (M (option Response))) :=
  match Payload.into_batches fuel payload batch_size with
  | Some batches => Some (map (submit_batch self) batches)
  | None => None
  end.

(** Modelled from the spec: the caller pulling every outcome of the lazy
    sequence, first to last, as [[r for r in api.submit(...)]] does in
    test_api.py. *)
Fixpoint consume {A : Type} (gen : list (M A)) : M (list A) :=
  match gen with
  | [] => ret []
  | step :: gen' =>
      let! r := step in
      let! rs := consume gen' in
      ret (r :: rs)
  end.

End API.

(** * Vocabulary of the properties *)

(** ** Batching *)

(** [ceil(n / b)] for [b >= 1]. *)
Definition ceil_div (n b : Z) : Z := (n + b - 1) / b.

(** Every batch but the last one holds exactly [b] entries. *)
Definition full_but_last (b : Z) (bs : list Payload.t) : Prop :=
  forall (i : nat) (q : Payload.t),
    bs !! i = Some q -> (S i < length bs)%nat ->
    Z.of_nat (length (Payload.data q)) = b.

(** A batch has the run environment and the run instants of its source. *)
Definition batch_of (self q : Payload.t) : Prop :=
  Payload.run_env q = Payload.run_env self /\
  Payload.started_at q = Payload.started_at self /\
  Payload.finished_at q = Payload.finished_at self.

(** ** Encoding *)

(** An instant of a span, as the encoder must write it: the seconds elapsed
    since the start [r] of the run. *)
Definition offset_seconds (r t : Instant) : JsonValue :=
  JNum (total_seconds (t - r)).

(** The same span, with its absolute instants moved by [d]. *)
Definition shift_span (d : Z) (s : TestSpan.t) : TestSpan.t :=
  TestSpan.mk (TestSpan.section s) (TestSpan.duration s)
    ((fun t => t + d) <$> TestSpan.start_at s)
    ((fun t => t + d) <$> TestSpan.end_at s)
    (TestSpan.detail s).

(** The key of an optional field: there when the field is. *)
Definition key_if {A : Type} (o : option A) (k : string) : list string :=
  match o with
  | Some _ => [k]
  | None => []
  end.

(** The keys of an encoded span, in the order of their insertion. *)
Definition span_keys (s : TestSpan.t) : list string :=
  ["section"; "duration"]
  ++ key_if (TestSpan.detail s) "detail"
  ++ key_if (TestSpan.start_at s) "start_at"
  ++ key_if (TestSpan.end_at s) "end_at".

(** The wire name of a result variant. *)
Definition result_name (res : TestResult) : string :=
  match res with
  | TestResultPassed => "passed"
  | TestResultFailed _ _ => "failed"
  | TestResultSkipped => "skipped"
  end.

(** The reason carried by a Failed result. *)
Definition failure_reason_of (res : option TestResult) : option string :=
  match res with
  | Some (TestResultFailed reason _) => reason
  | _ => None
  end.

(** The expansion carried by a Failed result. *)
Definition failure_expanded_of (res : option TestResult) : option FailureExpanded :=
  match res with
  | Some (TestResultFailed _ expanded) => expanded
  | _ => None
  end.

(** At least one entry of the payload is unfinished, hence dropped. *)
Definition dropped (p : Payload.t) : bool :=
  existsb (fun td => negb (TestData.is_finished td)) (Payload.data p).

(** ** Tests *)

(** [t'] is [t] but for the end and the duration of its history. *)
Definition same_but_timing (t t' : TestData.t) : Prop :=
  TestData.id t' = TestData.id t /\
  TestData.scope t' = TestData.scope t /\
  TestData.name t' = TestData.name t /\
  TestData.location t' = TestData.location t /\
  TestData.file_name t' = TestData.file_name t /\
  TestData.tags t' = TestData.tags t /\
  TestData.result t' = TestData.result t /\
  TestHistory.start_at (TestData.history t') = TestHistory.start_at (TestData.history t) /\
  TestHistory.children (TestData.history t') = TestHistory.children (TestData.history t).

(** [t'] is [t] but for its tags. *)
Definition same_but_tags (t t' : TestData.t) : Prop :=
  TestData.id t' = TestData.id t /\
  TestData.scope t' = TestData.scope t /\
  TestData.name t' = TestData.name t /\
  TestData.history t' = TestData.history t /\
  TestData.location t' = TestData.location t /\
  TestData.file_name t' = TestData.file_name t /\
  TestData.result t' = TestData.result t.

(** The exception of [tag_execution]. *)
Definition tag_type_error : PyExn := TypeError "Expected string for key and value".

(** ** Submission *)

(** The type name and the message of a timeout. *)
Definition timeout_of (o : Outcome) : option (string * string) :=
  match o with
  | ConnectTimeout msg => Some ("ConnectTimeout", msg)
  | ReadTimeout msg => Some ("ReadTimeout", msg)
  | Responded _ => None
  end.

(** [needle in hay]. *)
Definition contains (needle hay : string) : Prop :=
  exists pre post : string, hay = (pre ++ needle ++ post)%string.

(** One more outcome in front of the outcomes that follow. *)
Definition cons_outcome {A : Type} (r : A) (rest : Result (list A) * World)
    : Result (list A) * World :=
  (match fst rest with
   | Ok rs => Ok (r :: rs)
   | Raise e => Raise e
   end, snd rest).

(** ** Sample values *)

(** A finished test that ran from [s] to [e]. *)
Definition sample_test (uuid : string) (s e : Instant) (r : option TestResult)
    : TestData.t :=
  TestData.mk (mkUUID uuid) "sample scope" "sample name"
    (TestHistory.mk (Some s) (Some e) (Some (e - s)) (PyTuple []))
    (Some "tests/test_sample.py:1") (Some "tests/test_sample.py") ∅ r.

(** A passed test. *)
Definition successful_test : TestData.t :=
  sample_test "4c1b7e1e-0d6c-4a1f-9b0e-2f1d3a5b6c7d" 1000000 3000000
    (Some TestResultPassed).

(** A failed test. *)
Definition failed_test : TestData.t :=
  sample_test "9a8b7c6d-5e4f-4a3b-8c2d-1e0f9a8b7c6d" 3000000 7000000
    (Some (TestResultFailed (Some "bogus") None)).

(** A test that was started and never finished. *)
Definition unfinished_test : TestData.t :=
  TestData.mk (mkUUID "0f0e0d0c-0b0a-4908-8706-050403020100")
    "sample scope" "sample name" (TestHistory.mk (Some 7000000) None None (PyTuple []))
    None None ∅ None.

(** A test built without [TestData.start]: its history has no [start_at]
    (the default of the field). *)
Definition never_started_test : TestData.t :=
  TestData.mk (mkUUID "7d6c5b4a-3f2e-4d1c-8b0a-9f8e7d6c5b4a")
    "sample scope" "sample name" (TestHistory.mk None None None (PyTuple []))
    None None ∅ None.

(** A started payload with two finished tests and an unfinished one. *)
Definition sample_payload : Payload.t :=
  Payload.mk (mkRunEnv [("CI", JStr "true")])
    [successful_test; failed_test; unfinished_test] (Some 0) None.

(** A started payload with a passed and a failed test. *)
Definition two_test_payload : Payload.t :=
  Payload.mk (mkRunEnv [("CI", JStr "true")]) [successful_test; failed_test]
    (Some 0) None.

(** A payload that was never started and holds a finished test. *)
Definition unstarted_payload : Payload.t :=
  Payload.push_test_data (Payload.init (mkRunEnv [("CI", JStr "true")]))
    successful_test.

(** The answer of the endpoint to an accepted upload. *)
Definition sample_response : Response :=
  mkResponse 202 (JDict [("queued", JNum (QArith_base.Qmake 1 1));
                         ("skipped", JNum (QArith_base.Qmake 0 1));
                         ("errors", JList [])]).

(** A clock that ticks once per second, no line logged so far, and a
    transport on which the first POST times out and the later ones are
    accepted. *)
Definition sample_world : World :=
  mkWorld (fun n => 1000000 * Z.of_nat n) 8 []
    (fun n _ => match n with
                | O => ConnectTimeout "Error"
                | S _ => Responded sample_response
                end)
    [].

(** The configurations of test_api.py: no token. *)
Definition env_without_token : gmap string (option string) :=
  {[ "CI" := Some "true"; "BUILDKITE_ANALYTICS_TOKEN" := None ]}.

(** The configurations of test_api.py: a token that is a newline. *)
Definition env_with_blank_token : gmap string (option string) :=
  {[ "CI" := Some "true";
     "BUILDKITE_ANALYTICS_TOKEN" := Some (String (Ascii.ascii_of_nat 10) "") ]}.

(** The configurations of test_api.py: a token. *)
Definition env_with_token : gmap string (option string) :=
  {[ "CI" := Some "true";
     "BUILDKITE_ANALYTICS_TOKEN" := Some "5f1e2d3c-4b5a-4978-8695-a4b3c2d1e0f9" ]}.

(** ** Vocabulary of the further properties *)

(** The keys of an encoded history, in the order of their insertion. *)
Definition history_keys (h : TestHistory.t) : list string :=
  ["section"; "children"]
  ++ key_if (TestHistory.start_at h) "start_at"
  ++ key_if (TestHistory.end_at h) "end_at"
  ++ key_if (TestHistory.duration h) "duration".

(** The keys of an encoded test, in the order of their insertion. *)
Definition data_keys (t : TestData.t) : list string :=
  ["id"; "scope"; "name"; "location"; "file_name"; "history"]
  ++ (if decide (TestData.tags t = ∅) then [] else ["tags"])
  ++ key_if (TestData.result t) "result"
  ++ key_if (failure_reason_of (TestData.result t)) "failure_reason"
  ++ key_if (failure_expanded_of (TestData.result t)) "failure_expanded".

(** The list bound to a key of a dictionary (empty when there is none). *)
Definition json_list (k : string) (j : JsonValue) : list JsonValue :=
  match json_get k j with
  | Some (JList l) => l
  | _ => []
  end.

(** [t.passed()], [t.failed(reason, expanded)] or [t.skipped()], after the
    result they record. *)
Definition mark (res : TestResult) (t : TestData.t) : TestData.t :=
  match res with
  | TestResultPassed => TestData.passed t
  | TestResultFailed reason expanded => TestData.failed t reason expanded
  | TestResultSkipped => TestData.skipped t
  end.

(** [t.tag_execution(k, v)] on two strings. *)
Definition tag (k v : string) (t : TestData.t) : Result TestData.t :=
  TestData.tag_execution t (PyStr k) (PyStr v).

(** The batch of rank [i] (from 0) cut in [p] for the batch size [b]: the
    entries of ranks [i * b] to [i * b + b - 1]. *)
Definition batch_at (p : Payload.t) (b : Z) (i : nat) : Payload.t :=
  Payload.with_data p
    (firstn (Z.to_nat b) (skipn (i * Z.to_nat b) (Payload.data p))).

(** The number of batches cut in [n] entries for the batch size [b]. *)
Definition batch_count (n : nat) (b : Z) : nat :=
  Z.to_nat (Z.max 1 (ceil_div (Z.of_nat n) b)).

(** The clock read once, twice. *)
Definition tick (w : World) : World := snd (Instant_now w).

(** * Properties *)

(** ** Batching *)

Section Batching.

Variable self : Payload.t.
Variable b : Z.
Hypothesis Hb : 1 <= b.

Lemma ceil_div_small (n : Z) : 1 <= n <= b -> ceil_div n b = 1.
Proof.
  intros Hn. unfold ceil_div.
  replace (n + b - 1) with (1 * b + (n - 1)) by lia.
  rewrite Z.div_add_l by lia. rewrite Z.div_small; lia.
Qed.

Lemma ceil_div_zero : ceil_div 0 b = 0.
Proof. unfold ceil_div. apply Z.div_small. lia. Qed.

Lemma ceil_div_step (n : Z) : b < n -> ceil_div n b = 1 + ceil_div (n - b) b.
Proof.
  intros Hn. unfold ceil_div.
  replace (n + b - 1) with (1 * b + (n - b + b - 1)) by lia.
  rewrite Z.div_add_l by lia. reflexivity.
Qed.

Lemma ceil_div_pos (n : Z) : 1 <= n -> 1 <= ceil_div n b.
Proof.
  intros Hn. unfold ceil_div. apply Z.div_le_lower_bound; lia.
Qed.

Lemma slice_bound_inside (xs : list TestData.t) :
  b < Z.of_nat (length xs) -> slice_bound xs b = Z.to_nat b.
Proof.
  intros Hlen. unfold slice_bound.
  destruct (Z.ltb_spec b 0); [lia|]. f_equal. lia.
Qed.

Lemma batch_of_with_data (d : list TestData.t) :
  batch_of self (Payload.with_data self d).
Proof. repeat split. Qed.

Lemma full_but_last_cons (q : Payload.t) (bs : list Payload.t) :
  Z.of_nat (length (Payload.data q)) = b ->
  full_but_last b bs -> full_but_last b (q :: bs).
Proof.
  intros Hq Hbs [|i] q' Hlook Hlt; simpl in *.
  - congruence.
  - apply (Hbs i q' Hlook). lia.
Qed.

Lemma into_batches_rec_spec (fuel : nat) :
  forall (data : list TestData.t) (acc : list Payload.t),
    (length data < fuel)%nat ->
    exists bs : list Payload.t,
      Payload.into_batches_rec fuel self data acc b = Some (acc ++ bs) /\
      concat (map Payload.data bs) = data /\
      Forall (fun q => Z.of_nat (length (Payload.data q)) <= b /\ batch_of self q) bs /\
      Z.of_nat (length bs) = Z.max 1 (ceil_div (Z.of_nat (length data)) b) /\
      full_but_last b bs /\
      (Z.of_nat (length data) <= b -> bs = [Payload.with_data self data]).
Proof.
  induction fuel as [|fuel IH]; intros data acc Hfuel; [lia|].
  simpl. destruct (Z.leb_spec (Z.of_nat (length data)) b) as [Hsmall|Hbig].
  - exists [Payload.with_data self data]. repeat split.
    + simpl. apply app_nil_r.
    + constructor; [|constructor]. split; [exact Hsmall | apply batch_of_with_data].
    + simpl length. destruct (Z.eq_dec (Z.of_nat (length data)) 0) as [H0|H0].
      * rewrite H0, ceil_div_zero. reflexivity.
      * rewrite ceil_div_small by lia. reflexivity.
    + intros i q _ Hlt. simpl in Hlt. lia.
  - unfold slice_to, slice_from. rewrite slice_bound_inside by exact Hbig.
    set (n := Z.to_nat b).
    assert (Hn : (n <= length data)%nat) by (subst n; lia).
    destruct (IH (skipn n data)
                 (acc ++ [Payload.with_data self (firstn n data)]))
      as (bs & Hrun & Hcat & Hall & Hcount & Hfull & _).
    { rewrite length_skipn. subst n. lia. }
    exists (Payload.with_data self (firstn n data) :: bs).
    assert (Hfirst : Z.of_nat (length (firstn n data)) = b).
    { rewrite length_firstn. subst n. lia. }
    repeat split.
    + rewrite Hrun, <- app_assoc. reflexivity.
    + simpl. rewrite Hcat. apply firstn_skipn.
    + constructor; [|exact Hall].
      split; [simpl; lia | apply batch_of_with_data].
    + simpl length. rewrite Nat2Z.inj_succ, Hcount, length_skipn.
      rewrite (ceil_div_step (Z.of_nat (length data))) by exact Hbig.
      replace (Z.of_nat (length data - n)) with (Z.of_nat (length data) - b)
        by (subst n; lia).
      pose proof (ceil_div_pos (Z.of_nat (length data) - b)). lia.
    + apply full_but_last_cons; [exact Hfirst | exact Hfull].
    + lia.
Qed.

End Batching.

(** A batch size below 1 on a payload that holds entries: the recursion
    never reaches its base case, whatever depth it is given. *)
Lemma into_batches_rec_diverges (self : Payload.t) (b : Z) (fuel : nat) :
  b < 1 ->
  forall (data : list TestData.t) (acc : list Payload.t),
    data <> [] -> Payload.into_batches_rec fuel self data acc b = None.
Proof.
  intros Hb. induction fuel as [|fuel IH]; intros data acc Hdata; [reflexivity|].
  simpl. assert (Hlen : (0 < length data)%nat).
  { destruct data; [congruence | simpl; lia]. }
  destruct (Z.leb_spec (Z.of_nat (length data)) b); [lia|].
  apply IH. intros Hnil. apply (f_equal (@length _)) in Hnil.
  unfold slice_from, slice_bound in Hnil. rewrite length_skipn in Hnil.
  simpl in Hnil. destruct (Z.ltb_spec b 0); lia.
Qed.

(** C1: for every payload [p] and batch size [b >= 1], [into_batches]
    returns (given enough depth for its recursion: more than [len(p.data)]
    calls are never needed) a sequence of batches whose [data] collections,
    concatenated in order, are [p.data] itself, and none of which holds
    more than [b] entries. *)
Theorem into_batches_concat (fuel : nat) (p : Payload.t) (b : Z) :
  1 <= b ->
  (length (Payload.data p) < fuel)%nat ->
  exists bs : list Payload.t,
    Payload.into_batches fuel p b = Some bs /\
    concat (map Payload.data bs) = Payload.data p /\
    Forall (fun q => Z.of_nat (length (Payload.data q)) <= b) bs.
Proof.
  intros Hb Hfuel.
  destruct (into_batches_rec_spec p b Hb fuel (Payload.data p) [] Hfuel)
    as (bs & Hrun & Hcat & Hall & _).
  exists bs. split; [exact Hrun|]. split; [exact Hcat|].
  eapply Forall_impl; [exact Hall|]. intros q [Hq _]. exact Hq.
Qed.

Lemma into_batches_concat_witness :
  1 <= 2 /\ (length (Payload.data sample_payload) < 4)%nat /\
  exists bs : list Payload.t,
    Payload.into_batches 4 sample_payload 2 = Some bs /\
    concat (map Payload.data bs) = Payload.data sample_payload /\
    Forall (fun q => Z.of_nat (length (Payload.data q)) <= 2) bs.
Proof.
  split; [lia|]. split; [simpl; lia|].
  apply (into_batches_concat 4 sample_payload 2); [lia | simpl; lia].
Defined.

(** C2 as stated fails on a payload without test data: [into_batches]
    returns one (empty) batch, whereas [ceil(0 / 1)] is 0. *)
Lemma into_batches_count_counterexample :
  Payload.into_batches 1 (Payload.init (mkRunEnv [])) 1
    = Some [Payload.init (mkRunEnv [])] /\
  Z.of_nat (length [Payload.init (mkRunEnv [])])
    <> ceil_div (Z.of_nat (length (Payload.data (Payload.init (mkRunEnv []))))) 1.
Proof. split; [reflexivity | discriminate]. Qed.

(** C2, amended: for a payload [p] of [N] entries and [B >= 1],
    [into_batches] returns [ceil(N/B)] batches when [N >= 1] and a single
    empty batch when [N = 0], that is [max(1, ceil(N/B))] batches; every
    batch but the last holds exactly [B] entries; when [N <= B] the only
    batch is [p]; every batch has the [run_env], [started_at] and
    [finished_at] of [p].  The function builds new records and [p] is a
    value: nothing is mutated. *)
Theorem into_batches_count (fuel : nat) (p : Payload.t) (b : Z) :
  1 <= b ->
  (length (Payload.data p) < fuel)%nat ->
  exists bs : list Payload.t,
    Payload.into_batches fuel p b = Some bs /\
    Z.of_nat (length bs)
      = Z.max 1 (ceil_div (Z.of_nat (length (Payload.data p))) b) /\
    full_but_last b bs /\
    Forall (fun q => Z.of_nat (length (Payload.data q)) <= b) bs /\
    (Z.of_nat (length (Payload.data p)) <= b -> bs = [p]) /\
    Forall (batch_of p) bs.
Proof.
  intros Hb Hfuel.
  destruct (into_batches_rec_spec p b Hb fuel (Payload.data p) [] Hfuel)
    as (bs & Hrun & _ & Hall & Hcount & Hfull & Hone).
  exists bs. split; [exact Hrun|]. split; [exact Hcount|].
  split; [exact Hfull|]. split; [|split].
  - eapply Forall_impl; [exact Hall|]. intros q [Hq _]. exact Hq.
  - intros Hle. rewrite (Hone Hle). destruct p; reflexivity.
  - eapply Forall_impl; [exact Hall|]. intros q [_ Hq]. exact Hq.
Qed.

Lemma into_batches_count_witness :
  1 <= 2 /\ (length (Payload.data sample_payload) < 4)%nat /\
  exists bs : list Payload.t,
    Payload.into_batches 4 sample_payload 2 = Some bs /\
    Z.of_nat (length bs)
      = Z.max 1 (ceil_div (Z.of_nat (length (Payload.data sample_payload))) 2) /\
    full_but_last 2 bs /\
    Forall (fun q => Z.of_nat (length (Payload.data q)) <= 2) bs /\
    (Z.of_nat (length (Payload.data sample_payload)) <= 2 -> bs = [sample_payload]) /\
    Forall (batch_of sample_payload) bs.
Proof.
  split; [lia|]. split; [simpl; lia|].
  apply (into_batches_count 4 sample_payload 2); [lia | simpl; lia].
Defined.

(** ** Encoding of spans, histories and tests *)

Section Encoding.

Variable r : Instant.

Lemma mapR_ok {A B : Type} (f : A -> Result B) (xs : list A) :
  (forall x, In x xs -> exists y, f x = Ok y) ->
  exists ys, mapR f xs = Ok ys /\ Forall2 (fun x y => f x = Ok y) xs ys.
Proof.
  induction xs as [|x xs IH]; intros Hf; simpl.
  - exists []. split; [reflexivity | constructor].
  - destruct (Hf x (or_introl eq_refl)) as [y Hy].
    destruct IH as (ys & Hys & Hall).
    { intros x' Hin. apply Hf. right. exact Hin. }
    exists (y :: ys). rewrite Hy, Hys. split; [reflexivity|].
    constructor; assumption.
Qed.

Lemma span_as_json_ok (s : TestSpan.t) :
  exists j, TestSpan.as_json s (Some r) = Ok j.
Proof.
  destruct s as [sec dur [st|] [en|] [det|]]; eexists; reflexivity.
Qed.

Lemma history_as_json_ok (h : TestHistory.t) :
  exists j, TestHistory.as_json h (Some r) = Ok j.
Proof.
  unfold TestHistory.as_json.
  destruct (mapR_ok (fun span => TestSpan.as_json span (Some r))
              (TestHistory.children h)) as (spans & -> & _).
  { intros s _. apply span_as_json_ok. }
  destruct h as [[st|] [en|] [dur|] ch]; eexists; reflexivity.
Qed.

End Encoding.

(** With a run start, the history of a test is encoded: name the encoding
    and go on with the dictionary of the test. *)
Ltac encode_history r t :=
  unfold TestData.as_json;
  let hist := fresh "hist" in
  destruct (history_as_json_ok r (TestData.history t)) as [hist ->];
  cbn [bindR].

Lemma data_as_json_ok (r : Instant) (t : TestData.t) :
  exists j, TestData.as_json t (Some r) = Ok j.
Proof. encode_history r t. eexists; reflexivity. Qed.

(** Whatever an encoder raises is the failure of a subtraction. *)
Lemma span_as_json_exn (s : TestSpan.t) (o : option Instant) (e : PyExn) :
  TestSpan.as_json s o = Raise e -> e = OperandError.
Proof.
  destruct o as [r|].
  - destruct (span_as_json_ok r s) as [j ->]. discriminate.
  - destruct s as [sec dur [st|] [en|] [det|]]; cbv [TestSpan.as_json
      TestSpan.start_at TestSpan.end_at TestSpan.detail Instant_sub bindR];
      intros H; first [discriminate H | injection H as <-; reflexivity].
Qed.

Lemma mapR_exn {A B : Type} (f : A -> Result B) (xs : list A) (e : PyExn) :
  (forall x e', f x = Raise e' -> e' = OperandError) ->
  mapR f xs = Raise e -> e = OperandError.
Proof.
  intros Hf. induction xs as [|x xs IH]; simpl; [discriminate|].
  destruct (f x) as [y|e'] eqn:Hx; simpl.
  - destruct (mapR f xs) as [ys|e'']; simpl; [discriminate|].
    intros He. apply IH. congruence.
  - intros He. injection He as <-. apply (Hf x e' Hx).
Qed.

(** Without a run start, a finished history cannot be encoded. *)
Lemma history_as_json_unstarted (h : TestHistory.t) :
  TestHistory.is_finished h = true ->
  TestHistory.as_json h None = Raise OperandError.
Proof.
  intros Hfin. unfold TestHistory.as_json.
  destruct (mapR (fun span => TestSpan.as_json span None) (TestHistory.children h))
    as [spans|e] eqn:Hspans.
  - destruct h as [[st|] [en|] dur ch]; simpl in *; try discriminate; reflexivity.
  - simpl. f_equal. eapply mapR_exn; [|exact Hspans].
    intros s e'. apply span_as_json_exn.
Qed.

(** C6: for every span [s] and run start [r], [s.as_json(r)] returns a
    dictionary that always holds "section" and "duration" (in seconds),
    holds "detail" exactly when the detail is present, and holds "start_at"
    and "end_at" exactly when present, as the seconds elapsed since [r];
    no absolute instant is written: moving the span and the run start by
    the same amount leaves the encoding unchanged. *)
Theorem span_as_json_relative (s : TestSpan.t) (r : Instant) :
  exists j : JsonValue,
    TestSpan.as_json s (Some r) = Ok j /\
    json_keys j = span_keys s /\
    json_get "section" j = Some (JStr (TestSpan.section_str (TestSpan.section s))) /\
    json_get "duration" j = Some (JNum (total_seconds (TestSpan.duration s))) /\
    json_get "detail" j = JStr <$> TestSpan.detail s /\
    json_get "start_at" j = offset_seconds r <$> TestSpan.start_at s /\
    json_get "end_at" j = offset_seconds r <$> TestSpan.end_at s /\
    forall d : Z, TestSpan.as_json (shift_span d s) (Some (r + d)) = Ok j.
Proof.
  assert (Hshift : forall t d : Z, t + d - (r + d) = t - r) by (intros; lia).
  destruct s as [sec dur [st|] [en|] [det|]];
    eexists; (split; [reflexivity|]);
    repeat (split; [reflexivity|]);
    intros d; unfold shift_span, TestSpan.as_json; simpl;
    rewrite ?Hshift; reflexivity.
Qed.

(** C7: for every test [t] and run start [r], [t.as_json(r)] holds the key
    "result" exactly when a result was set, bound to "passed", "failed" or
    "skipped" after the variant; "failure_reason" and "failure_expanded" are
    there exactly when the result is Failed and carries the field; "tags"
    is left out when the tags are empty and is the tags otherwise. *)
Theorem data_as_json_result (t : TestData.t) (r : Instant) :
  exists j : JsonValue,
    TestData.as_json t (Some r) = Ok j /\
    json_get "result" j = (fun res => JStr (result_name res)) <$> TestData.result t /\
    json_get "failure_reason" j = JStr <$> failure_reason_of (TestData.result t) /\
    json_get "failure_expanded" j
      = JExpanded <$> failure_expanded_of (TestData.result t) /\
    json_get "tags" j
      = (if decide (TestData.tags t = ∅) then None
         else Some (JTags (TestData.tags t))).
Proof.
  encode_history r t.
  destruct t as [uuid scope name h loc file tags res]. simpl.
  assert (Htags : (0 <? size tags)%nat = if decide (tags = ∅) then false else true).
  { destruct (decide (tags = ∅)) as [->|Hne].
    - reflexivity.
    - apply Nat.ltb_lt. apply map_size_non_empty_iff in Hne. lia. }
  rewrite Htags.
  destruct (decide (tags = ∅));
    destruct res as [[|[reason|] [expanded|]|]|];
    eexists; repeat split; reflexivity.
Qed.

(** C10: for every test [t] and run start [r], [t.as_json(r)] always holds
    the keys "location" and "file_name": the value is the string when the
    field is set and null when it is not. *)
Theorem data_as_json_location (t : TestData.t) (r : Instant) :
  exists j : JsonValue,
    TestData.as_json t (Some r) = Ok j /\
    In "location" (json_keys j) /\
    In "file_name" (json_keys j) /\
    json_get "location" j
      = Some (match TestData.location t with
              | Some s => JStr s
              | None => JNull
              end) /\
    json_get "file_name" j
      = Some (match TestData.file_name t with
              | Some s => JStr s
              | None => JNull
              end).
Proof.
  encode_history r t.
  destruct t as [uuid scope name h loc file tags res]. simpl.
  destruct (0 <? size tags)%nat;
    destruct res as [[|[reason|] [expanded|]|]|];
    eexists; (split; [reflexivity|]); simpl; tauto.
Qed.

(** ** Serialization of a payload *)

Lemma filter_length_lt {A : Type} (f : A -> bool) (l : list A) :
  (length (List.filter f l) <? length l)%nat = existsb (fun x => negb (f x)) l.
Proof.
  induction l as [|a l IH]; [reflexivity|]. simpl.
  destruct (f a); simpl.
  - exact IH.
  - apply Nat.ltb_lt. pose proof (List.filter_length_le f l). lia.
Qed.

(** A payload that was not started and holds a finished entry cannot be
    serialized. *)
Lemma payload_as_json_unstarted (p : Payload.t) (w : World) :
  Payload.started_at p = None ->
  List.filter TestData.is_finished (Payload.data p) <> [] ->
  fst (Payload.as_json p w) = Raise OperandError.
Proof.
  intros Hstart Hsome. unfold Payload.as_json. rewrite Hstart.
  destruct (List.filter TestData.is_finished (Payload.data p))
    as [|td tds] eqn:Hfilter; [congruence|].
  assert (Hfin : TestData.is_finished td = true).
  { apply (proj1 (List.filter_In TestData.is_finished td (Payload.data p))).
    rewrite Hfilter. left. reflexivity. }
  assert (Hraise : mapR (fun td => TestData.as_json td None) (td :: tds)
                   = Raise OperandError).
  { simpl. unfold TestData.as_json at 1.
    rewrite (history_as_json_unstarted _ Hfin). reflexivity. }
  unfold bindM at 1.
  destruct (length (td :: tds) <? length (Payload.data p))%nat;
    [unfold logger_warning | unfold ret at 1]; cbv beta iota;
    unfold bindM at 1; unfold lift at 1; rewrite Hraise; reflexivity.
Qed.

(** C3 as stated fails on a payload that was not started: encoding a
    finished test subtracts the absent run start and raises. *)
Lemma payload_as_json_counterexample :
  Payload.started_at unstarted_payload = None /\
  List.filter TestData.is_finished (Payload.data unstarted_payload) = [successful_test] /\
  Payload.as_json unstarted_payload sample_world = (Raise OperandError, sample_world).
Proof. repeat split. Qed.

(** The run of [as_json] on a payload that is started or holds no finished
    entry. *)
Lemma payload_as_json_run (p : Payload.t) (w : World) :
  Payload.started_at p <> None \/
    List.filter TestData.is_finished (Payload.data p) = [] ->
  exists encoded : list JsonValue,
    Payload.as_json p w
      = (Ok (JDict [("format", JStr "json");
                    ("run_env", RunEnv_as_json (Payload.run_env p));
                    ("data", JList encoded)]),
         if dropped p
         then snd (logger_warning Payload.unfinished_warning w)
         else w) /\
    Forall2 (fun td e => TestData.as_json td (Payload.started_at p) = Ok e)
      (List.filter TestData.is_finished (Payload.data p)) encoded.
Proof.
  intros Hp. unfold Payload.as_json, dropped.
  rewrite filter_length_lt.
  destruct (mapR_ok (fun td => TestData.as_json td (Payload.started_at p))
              (List.filter TestData.is_finished (Payload.data p)))
    as (encoded & Hmap & Hall).
  { intros td Hin. destruct Hp as [Hstarted|Hnone].
    - destruct (Payload.started_at p) as [r|]; [|congruence].
      apply data_as_json_ok.
    - rewrite Hnone in Hin. destruct Hin. }
  exists encoded. split; [|exact Hall].
  unfold bindM at 1.
  destruct (existsb _ (Payload.data p)); simpl;
    unfold bindM, lift, ret; rewrite Hmap; reflexivity.
Qed.

(** C3, amended: for every payload [p] whose [started_at] is present (or
    which holds no finished entry), [p.as_json()] returns the dictionary
    with exactly the keys "format" (bound to "json"), "run_env" (the encoded
    run environment) and "data", the encodings of exactly the entries for
    which [is_finished()] holds, in their order; the warning is logged if
    and only if an entry was dropped, and nothing is raised. *)
Theorem payload_as_json_finished (p : Payload.t) (w : World) :
  Payload.started_at p <> None \/
    List.filter TestData.is_finished (Payload.data p) = [] ->
  exists encoded : list JsonValue,
    Payload.as_json p w
      = (Ok (JDict [("format", JStr "json");
                    ("run_env", RunEnv_as_json (Payload.run_env p));
                    ("data", JList encoded)]),
         if dropped p
         then snd (logger_warning Payload.unfinished_warning w)
         else w) /\
    Forall2 (fun td e => TestData.as_json td (Payload.started_at p) = Ok e)
      (List.filter TestData.is_finished (Payload.data p)) encoded.
Proof. exact (payload_as_json_run p w). Qed.

Lemma payload_as_json_finished_witness :
  (Payload.started_at sample_payload <> None \/
     List.filter TestData.is_finished (Payload.data sample_payload) = []) /\
  exists encoded : list JsonValue,
    Payload.as_json sample_payload sample_world
      = (Ok (JDict [("format", JStr "json");
                    ("run_env", RunEnv_as_json (Payload.run_env sample_payload));
                    ("data", JList encoded)]),
         if dropped sample_payload
         then snd (logger_warning Payload.unfinished_warning sample_world)
         else sample_world) /\
    Forall2 (fun td e => TestData.as_json td (Payload.started_at sample_payload) = Ok e)
      (List.filter TestData.is_finished (Payload.data sample_payload)) encoded.
Proof.
  split; [left; discriminate|].
  apply (payload_as_json_finished sample_payload sample_world).
  left; discriminate.
Defined.

(** ** Finishing a test *)

(** An unfinished test without [history.start_at] cannot be finished: the
    clock is read and the subtraction raises. *)
Lemma finish_unstarted (t : TestData.t) (w : World) :
  TestData.is_finished t = false ->
  TestHistory.start_at (TestData.history t) = None ->
  TestData.finish t w = (Raise OperandError, snd (Instant_now w)).
Proof.
  intros Hfin Hstart. unfold TestData.finish. rewrite Hfin, Hstart. reflexivity.
Qed.

(** C4 as stated fails on an unfinished test whose history has no
    [start_at]: [finish()] reads the clock, the subtraction raises and no
    copy is returned. *)
Lemma finish_counterexample :
  TestData.is_finished never_started_test = false /\
  fst (TestData.finish never_started_test sample_world) = Raise OperandError.
Proof. split; reflexivity. Qed.

(** C4, amended: [finish()] is idempotent: on a finished test it returns the
    test unchanged without reading the clock, and calling it twice in a row
    is the same as calling it once (same outcome, same end time, same
    clock); on an unfinished test whose [history.start_at] is present it
    returns a copy with [end_at] set to the instant read from the clock and
    [duration = end_at - history.start_at], every other field kept. *)
Theorem finish_idempotent (t : TestData.t) (w : World) :
  (TestData.is_finished t = true -> TestData.finish t w = (Ok t, w)) /\
  (let! t1 := TestData.finish t in TestData.finish t1) w = TestData.finish t w /\
  (forall s : Instant,
     TestData.is_finished t = false ->
     TestHistory.start_at (TestData.history t) = Some s ->
     exists t' : TestData.t,
       TestData.finish t w = (Ok t', snd (Instant_now w)) /\
       TestHistory.end_at (TestData.history t') = Some (clock w (reads w)) /\
       TestHistory.duration (TestData.history t') = Some (clock w (reads w) - s) /\
       TestData.is_finished t' = true /\
       same_but_timing t t').
Proof.
  split; [|split].
  - intros Hfin. unfold TestData.finish. rewrite Hfin. reflexivity.
  - unfold TestData.finish, bindM.
    destruct (TestData.is_finished t) eqn:Hfin.
    + unfold ret. rewrite Hfin. reflexivity.
    + destruct (TestHistory.start_at (TestData.history t)) as [s|] eqn:Hs;
        reflexivity.
  - intros s Hfin Hs. unfold TestData.finish. rewrite Hfin, Hs.
    eexists. split; [reflexivity|]. repeat split; simpl; auto.
Qed.

Lemma finish_idempotent_witness :
  TestData.is_finished successful_test = true /\
  TestData.finish successful_test sample_world = (Ok successful_test, sample_world) /\
  TestData.is_finished unfinished_test = false /\
  TestHistory.start_at (TestData.history unfinished_test) = Some 7000000 /\
  exists t' : TestData.t,
    TestData.finish unfinished_test sample_world
      = (Ok t', snd (Instant_now sample_world)) /\
    TestHistory.end_at (TestData.history t') = Some (clock sample_world (reads sample_world)) /\
    TestHistory.duration (TestData.history t')
      = Some (clock sample_world (reads sample_world) - 7000000) /\
    TestData.is_finished t' = true /\
    same_but_timing unfinished_test t'.
Proof.
  split; [reflexivity|].
  split; [apply (proj1 (finish_idempotent successful_test sample_world)); reflexivity|].
  split; [reflexivity|]. split; [reflexivity|].
  apply (proj2 (proj2 (finish_idempotent unfinished_test sample_world)) 7000000);
    reflexivity.
Defined.

(** ** Tagging a test *)

Lemma finish_returns (t : TestData.t) (w : World) :
  TestData.is_finished t = true \/
    TestHistory.start_at (TestData.history t) <> None ->
  exists (t' : TestData.t) (w' : World), TestData.finish t w = (Ok t', w').
Proof.
  intros H. unfold TestData.finish.
  destruct (TestData.is_finished t) eqn:Hfin; [do 2 eexists; reflexivity|].
  destruct H as [H|H]; [discriminate|].
  destruct (TestHistory.start_at (TestData.history t)) as [s|]; [|congruence].
  do 2 eexists. reflexivity.
Qed.

(** C5 as stated fails in its last sentence: a tagged test whose history
    has no [start_at] makes [finish()] raise, and what is raised is not the
    type error of [tag_execution]. *)
Lemma tag_execution_counterexample :
  fst ((let! t1 := lift (TestData.tag_execution never_started_test
                           (PyStr "suite") (PyStr "unit")) in
        TestData.finish t1) sample_world) = Raise OperandError /\
  OperandError <> tag_type_error.
Proof. split; [reflexivity | discriminate]. Qed.

(** C5, amended: [t.tag_execution(key, val)] raises a type error if and
    only if [key] or [val] is not a string, and raises nothing else;
    otherwise it returns a copy of [t] whose tags map [key] to [val],
    whatever [key] was bound to before, every other tag and field kept.
    The other operations raise nothing as long as the instant they subtract
    is present: [finish()] on a test that is finished or has a
    [history.start_at], [as_json(r)] on a test, [as_json()] on a started
    payload. *)
Theorem tag_execution_type_error (t : TestData.t) :
  (forall key val : PyVal,
     (exists msg, TestData.tag_execution t key val = Raise (TypeError msg))
     <-> (isinstance_str key = false \/ isinstance_str val = false)) /\
  (forall (key val : PyVal) (e : PyExn),
     TestData.tag_execution t key val = Raise e -> e = tag_type_error) /\
  (forall k v : string,
     exists t' : TestData.t,
       TestData.tag_execution t (PyStr k) (PyStr v) = Ok t' /\
       TestData.tags t' !! k = Some v /\
       (forall k' : string, k' <> k -> TestData.tags t' !! k' = TestData.tags t !! k') /\
       same_but_tags t t') /\
  (forall w : World,
     TestData.is_finished t = true \/
       TestHistory.start_at (TestData.history t) <> None ->
     exists (t' : TestData.t) (w' : World), TestData.finish t w = (Ok t', w')) /\
  (forall r : Instant, exists j : JsonValue, TestData.as_json t (Some r) = Ok j) /\
  (forall (p : Payload.t) (w : World),
     Payload.started_at p <> None ->
     exists (j : JsonValue) (w' : World), Payload.as_json p w = (Ok j, w')).
Proof.
  split; [|split; [|split; [|split; [|split]]]].
  - intros key val. split.
    + intros [msg Hmsg]. unfold TestData.tag_execution in Hmsg.
      destruct (isinstance_str key), (isinstance_str val); simpl in Hmsg;
        try discriminate; auto.
    + intros Hnot. exists "Expected string for key and value".
      unfold TestData.tag_execution.
      destruct Hnot as [-> | ->]; [reflexivity|].
      destruct (isinstance_str key); reflexivity.
  - intros key val e He. unfold TestData.tag_execution in He.
    destruct (negb (isinstance_str key) || negb (isinstance_str val));
      [|discriminate].
    injection He as <-. reflexivity.
  - intros k v. eexists. split; [reflexivity|]. simpl.
    split; [apply lookup_insert_eq|].
    split; [|repeat split].
    intros k' Hne. apply lookup_insert_ne. congruence.
  - intros w H. apply finish_returns. exact H.
  - intros r. apply data_as_json_ok.
  - intros p w Hp.
    destruct (payload_as_json_run p w (or_introl Hp)) as (encoded & Hrun & _).
    do 2 eexists. exact Hrun.
Qed.

Lemma tag_execution_type_error_witness :
  (TestData.is_finished unfinished_test = true \/
     TestHistory.start_at (TestData.history unfinished_test) <> None) /\
  (exists (t' : TestData.t) (w' : World),
     TestData.finish unfinished_test sample_world = (Ok t', w')) /\
  Payload.started_at sample_payload <> None /\
  (exists (j : JsonValue) (w' : World),
     Payload.as_json sample_payload sample_world = (Ok j, w')) /\
  TestData.tag_execution unfinished_test (PyStr "suite") (PyInt 3)
    = Raise tag_type_error.
Proof.
  pose proof (tag_execution_type_error unfinished_test)
    as (_ & _ & _ & Hfinish & _ & Hpayload).
  split; [right; discriminate|].
  split; [apply Hfinish; right; discriminate|].
  split; [discriminate|].
  split; [apply Hpayload; discriminate|].
  reflexivity.
Defined.

(** ** Submission *)

Lemma append_nil_r (s : string) : (s ++ "")%string = s.
Proof.
  induction s as [|a s IH]; [reflexivity|].
  change (String a (s ++ "")%string = String a s). f_equal. exact IH.
Qed.

Lemma append_assoc (s1 s2 s3 : string) :
  ((s1 ++ s2) ++ s3)%string = (s1 ++ s2 ++ s3)%string.
Proof.
  induction s1 as [|a s1 IH]; [reflexivity|].
  change (String a ((s1 ++ s2) ++ s3)%string = String a (s1 ++ s2 ++ s3)%string).
  f_equal. exact IH.
Qed.

Lemma consume_cons {A : Type} (step : M A) (gen : list (M A)) (w w1 : World) (r : A) :
  step w = (Ok r, w1) ->
  API.consume (step :: gen) w = cons_outcome r (API.consume gen w1).
Proof.
  intros Hstep. simpl. unfold bindM, cons_outcome. rewrite Hstep.
  destruct (API.consume gen w1) as [[rs|e] w2]; reflexivity.
Qed.

Lemma submit_batch_disabled (api : API.t) (batch : Payload.t) (w : World) :
  API.has_credential api = false ->
  API.submit_batch api batch w = (Ok None, w).
Proof. intros Hcred. unfold API.submit_batch. rewrite Hcred. reflexivity. Qed.

Lemma consume_disabled (api : API.t) (batches : list Payload.t) (w : World) :
  API.has_credential api = false ->
  API.consume (map (API.submit_batch api) batches) w
    = (Ok (repeat None (length batches)), w).
Proof.
  intros Hcred. induction batches as [|batch batches IH]; [reflexivity|].
  simpl map. rewrite (consume_cons _ _ w w None)
    by (apply submit_batch_disabled; exact Hcred).
  rewrite IH. reflexivity.
Qed.

(** The credential is missing exactly when the token is absent, empty or
    made of whitespace only. *)
Lemma has_credential_false (api : API.t) :
  API.has_credential api = false <->
  API.token api = None \/
  exists tok, API.token api = Some tok /\ API.is_blank tok = true.
Proof.
  unfold API.has_credential. destruct (API.token api) as [tok|].
  - split.
    + intros H. right. exists tok. split; [reflexivity|].
      destruct (API.is_blank tok); [reflexivity | discriminate].
    + intros [H | (tok' & Heq & Hblank)]; [discriminate|].
      injection Heq as <-. rewrite Hblank. reflexivity.
  - split; [left; reflexivity | reflexivity].
Qed.

Lemma into_batches_returns (fuel : nat) (p : Payload.t) (b : Z) :
  1 <= b \/ (b = 0 /\ Payload.data p = []) ->
  (length (Payload.data p) < fuel)%nat ->
  exists bs : list Payload.t, Payload.into_batches fuel p b = Some bs.
Proof.
  intros [Hb | [-> Hdata]] Hfuel.
  - destruct (into_batches_rec_spec p b Hb fuel (Payload.data p) [] Hfuel)
      as (bs & Hrun & _).
    exists bs. exact Hrun.
  - destruct fuel as [|fuel]; [lia|].
    unfold Payload.into_batches. rewrite Hdata. eexists. reflexivity.
Qed.

(** C8 as stated fails for the batch size 0 on a payload that holds tests:
    the batching never comes to an end, whatever depth it is allowed, and
    [submit] yields nothing at all, credential or not. *)
Lemma submit_without_credential_counterexample :
  API.has_credential (API.init env_without_token) = false /\
  Payload.data two_test_payload = [successful_test; failed_test] /\
  forall fuel : nat,
    API.submit fuel (API.init env_without_token) two_test_payload 0 = None.
Proof.
  split; [reflexivity|]. split; [reflexivity|].
  intros fuel. unfold API.submit, Payload.into_batches.
  rewrite (into_batches_rec_diverges two_test_payload 0 fuel) by
    first [lia | discriminate].
  reflexivity.
Qed.

(** C8, amended: for every payload and every batch size for which the
    batching comes to an end (a batch size of at least 1, or 0 on a payload
    without tests), when no credential is configured, or the credential is
    empty or whitespace-only, [submit] yields [None] for every batch: the
    batches are cut, the sequence has one outcome per batch, each of them
    is [None], and consuming it leaves the world as it was, so that no POST
    is issued and nothing is logged. *)
Theorem submit_without_credential (fuel : nat) (api : API.t) (p : Payload.t)
    (b : Z) (w : World) :
  API.token api = None \/
    (exists tok, API.token api = Some tok /\ API.is_blank tok = true) ->
  1 <= b \/ (b = 0 /\ Payload.data p = []) ->
  (length (Payload.data p) < fuel)%nat ->
  exists (batches : list Payload.t) (gen : list (M (option Response))),
    Payload.into_batches fuel p b = Some batches /\
    API.submit fuel api p b = Some gen /\
    length gen = length batches /\
    Forall (fun step => forall w', step w' = (Ok None, w')) gen /\
    API.consume gen w = (Ok (repeat None (length batches)), w) /\
    posts (snd (API.consume gen w)) = posts w.
Proof.
  intros Hcred Hb Hfuel. apply has_credential_false in Hcred.
  destruct (into_batches_returns fuel p b Hb Hfuel) as [batches Hbatches].
  exists batches, (map (API.submit_batch api) batches).
  split; [exact Hbatches|].
  unfold API.submit. rewrite Hbatches.
  split; [reflexivity|]. split; [apply length_map|].
  split.
  - apply Forall_map. apply Forall_forall. intros batch _ w'.
    apply submit_batch_disabled. exact Hcred.
  - rewrite consume_disabled by exact Hcred. split; reflexivity.
Qed.

Lemma submit_without_credential_witness :
  (API.token (API.init env_with_blank_token) = None \/
     exists tok, API.token (API.init env_with_blank_token) = Some tok /\
                 API.is_blank tok = true) /\
  (1 <= 1 \/ (1 = 0 /\ Payload.data two_test_payload = [])) /\
  (length (Payload.data two_test_payload) < 3)%nat /\
  exists (batches : list Payload.t) (gen : list (M (option Response))),
    Payload.into_batches 3 two_test_payload 1 = Some batches /\
    API.submit 3 (API.init env_with_blank_token) two_test_payload 1 = Some gen /\
    length gen = length batches /\
    Forall (fun step => forall w', step w' = (Ok None, w')) gen /\
    API.consume gen sample_world
      = (Ok (repeat None (length batches)), sample_world) /\
    posts (snd (API.consume gen sample_world)) = posts sample_world.
Proof.
  assert (Hblank : API.token (API.init env_with_blank_token) = None \/
     exists tok, API.token (API.init env_with_blank_token) = Some tok /\
                 API.is_blank tok = true).
  { right. eexists. split; reflexivity. }
  split; [exact Hblank|]. split; [left; lia|]. split; [simpl; lia|].
  apply (submit_without_credential 3 (API.init env_with_blank_token)
           two_test_payload 1 sample_world Hblank); [left; lia | simpl; lia].
Defined.

(** C9: a connect or read timeout on the POST of a batch is caught: a
    warning holding the type name of the exception (and its message) is
    logged, [None] is the outcome of that batch, and the batches that follow
    are submitted as they would have been, in order; with two batches, the
    first timing out and the second answered by a 2xx response, the
    outcomes are [None] and then the response. *)
Theorem submit_timeout_continues (api : API.t) (batch : Payload.t)
    (rest : list Payload.t) (w w1 : World) (body : JsonValue)
    (type_name msg : string) :
  API.has_credential api = true ->
  Payload.as_json batch w = (Ok body, w1) ->
  timeout_of (transport w1 (length (posts w1)) (API.request api body))
    = Some (type_name, msg) ->
  exists (w2 : World) (line : string),
    API.submit_batch api batch w = (Ok None, w2) /\
    w2 = snd (logger_warning line (snd (post (API.request api body) w1))) /\
    warnings w2 = warnings w1 ++ [line] /\
    contains type_name line /\
    contains msg line /\
    posts w2 = posts w1 ++ [API.request api body] /\
    API.consume (map (API.submit_batch api) (batch :: rest)) w
      = cons_outcome None (API.consume (map (API.submit_batch api) rest) w2) /\
    (forall (batch2 : Payload.t) (body2 : JsonValue) (w3 : World) (r : Response),
       rest = [batch2] ->
       Payload.as_json batch2 w2 = (Ok body2, w3) ->
       transport w3 (length (posts w3)) (API.request api body2) = Responded r ->
       200 <= status_code r < 300 ->
       fst (API.consume (map (API.submit_batch api) [batch; batch2]) w)
         = Ok [None; Some r]).
Proof.
  intros Hcred Hjson Htimeout.
  set (o := transport w1 (length (posts w1)) (API.request api body)) in *.
  set (w2 := snd (logger_warning (API.timeout_warning type_name msg)
                    (snd (post (API.request api body) w1)))).
  assert (Hstep : API.submit_batch api batch w = (Ok None, w2)).
  { unfold API.submit_batch. rewrite Hcred. cbn [negb].
    unfold bindM at 1. rewrite Hjson.
    unfold bindM at 1. unfold post at 1. fold o.
    destruct o as [m|m|r0]; simpl in Htimeout; try discriminate;
      injection Htimeout as <- <-; reflexivity. }
  exists w2, (API.timeout_warning type_name msg).
  split; [exact Hstep|]. split; [reflexivity|]. split; [reflexivity|].
  split; [exists "", (": " ++ msg)%string; reflexivity|].
  split.
  { exists (type_name ++ ": ")%string, "". unfold API.timeout_warning.
    rewrite append_nil_r, append_assoc. reflexivity. }
  split; [reflexivity|].
  split; [apply consume_cons; exact Hstep|].
  intros batch2 body2 w3 r -> Hjson2 Hresp H2xx.
  simpl map. rewrite (consume_cons _ _ w w2 None Hstep).
  assert (Hstep2 : API.submit_batch api batch2 w2 = (Ok (Some r), snd (post (API.request api body2) w3))).
  { unfold API.submit_batch. rewrite Hcred. cbn [negb].
    unfold bindM at 1. rewrite Hjson2.
    unfold bindM at 1. unfold post at 1. rewrite Hresp.
    replace ((200 <=? status_code r) && (status_code r <? 300)) with true;
      [reflexivity|].
    symmetry. apply andb_true_intro. split; [apply Z.leb_le | apply Z.ltb_lt]; lia. }
  rewrite (consume_cons _ _ w2 _ (Some r) Hstep2). reflexivity.
Qed.

Lemma submit_timeout_continues_witness :
  API.has_credential (API.init env_with_token) = true /\
  (exists body : JsonValue,
     Payload.as_json (Payload.with_data two_test_payload [successful_test])
       sample_world = (Ok body, sample_world) /\
     timeout_of (transport sample_world (length (posts sample_world))
                   (API.request (API.init env_with_token) body))
       = Some ("ConnectTimeout", "Error")) /\
  fst (API.consume
         (map (API.submit_batch (API.init env_with_token))
              [Payload.with_data two_test_payload [successful_test];
               Payload.with_data two_test_payload [failed_test]])
         sample_world)
    = Ok [None; Some sample_response].
Proof.
  split; [reflexivity|].
  split; [eexists; split; reflexivity|].
  edestruct (submit_timeout_continues (API.init env_with_token)
               (Payload.with_data two_test_payload [successful_test])
               [Payload.with_data two_test_payload [failed_test]]
               sample_world)
    as (w2 & line & _ & -> & _ & _ & _ & _ & _ & Htwo);
    [reflexivity | reflexivity | reflexivity |].
  eapply Htwo; [reflexivity | reflexivity | reflexivity | simpl; lia].
Defined.

(** ** Runs of the definitions *)

Example into_batches_sample :
  Payload.into_batches 4 sample_payload 2
    = Some [Payload.with_data sample_payload [successful_test; failed_test];
            Payload.with_data sample_payload [unfinished_test]].
Proof. reflexivity. Qed.

Example into_batches_default_size :
  Payload.into_batches 1 sample_payload 100 = Some [sample_payload].
Proof. reflexivity. Qed.

Example into_batches_size_zero :
  Payload.into_batches 1000 sample_payload 0 = None.
Proof. apply into_batches_rec_diverges; [lia | discriminate]. Qed.

Example as_json_drops_unfinished :
  warnings (snd (Payload.as_json sample_payload sample_world))
    = [Payload.unfinished_warning] /\
  exists passed failed : JsonValue,
    TestData.as_json successful_test (Some 0) = Ok passed /\
    TestData.as_json failed_test (Some 0) = Ok failed /\
    fst (Payload.as_json sample_payload sample_world)
      = Ok (JDict [("format", JStr "json");
                   ("run_env", JDict [("CI", JStr "true")]);
                   ("data", JList [passed; failed])]).
Proof. split; [reflexivity|]. do 2 eexists. repeat split. Qed.

Example finish_stamps_clock :
  exists t' : TestData.t,
    fst (TestData.finish unfinished_test sample_world) = Ok t' /\
    TestHistory.end_at (TestData.history t') = Some 8000000 /\
    TestHistory.duration (TestData.history t') = Some 1000000.
Proof. eexists. repeat split. Qed.

Example no_token_no_credential :
  API.has_credential (API.init env_without_token) = false /\
  API.has_credential (API.init env_with_blank_token) = false /\
  API.has_credential (API.init env_with_token) = true.
Proof. repeat split. Qed.

Example empty_payload_without_token :
  exists gen : list (M (option Response)),
    API.submit 1 (API.init env_without_token) (Payload.init (mkRunEnv [])) 100
      = Some gen /\
    API.consume gen sample_world = (Ok [None], sample_world).
Proof. eexists. split; reflexivity. Qed.

(** * Further properties of the data model *)

(** ** Histories and spans *)

Lemma mapR_app {A B : Type} (f : A -> Result B) (xs ys : list A) :
  mapR f (xs ++ ys)
    = (let? a := mapR f xs in let? b := mapR f ys in Ok (a ++ b)).
Proof.
  induction xs as [|x xs IH]; simpl.
  - destruct (mapR f ys); reflexivity.
  - destruct (f x) as [y|e]; simpl; [|reflexivity].
    rewrite IH. destruct (mapR f xs) as [a|e]; simpl; [|reflexivity].
    destruct (mapR f ys); reflexivity.
Qed.

(** X1: with a run start, a history is always encoded: "section" is "top",
    "children" holds the encodings of the spans, as many as were pushed and
    in the order of the pushes, "start_at" and "end_at" are offsets from the
    run start, and "duration" is the stored duration, each of the last three
    present exactly when the field is. *)
Theorem history_as_json_children (h : TestHistory.t) (r : Instant) :
  exists (j : JsonValue) (spans : list JsonValue),
    TestHistory.as_json h (Some r) = Ok j /\
    Forall2 (fun s e => TestSpan.as_json s (Some r) = Ok e)
      (TestHistory.children h) spans /\
    length spans = length (TestHistory.children h) /\
    json_keys j = history_keys h /\
    json_get "section" j = Some (JStr "top") /\
    json_get "children" j = Some (JList spans) /\
    json_get "start_at" j = offset_seconds r <$> TestHistory.start_at h /\
    json_get "end_at" j = offset_seconds r <$> TestHistory.end_at h /\
    json_get "duration" j
      = (fun d => JNum (total_seconds d)) <$> TestHistory.duration h.
Proof.
  unfold TestHistory.as_json.
  destruct (mapR_ok (fun span => TestSpan.as_json span (Some r))
              (TestHistory.children h)) as (spans & Hspans & Hall).
  { intros s _. apply span_as_json_ok. }
  rewrite Hspans. pose proof (Forall2_length _ _ _ Hall) as Hlen.
  destruct h as [[st|] [en|] [dur|] ch]; simpl in *;
    eexists; exists spans; (split; [reflexivity|]); (split; [exact Hall|]);
    (split; [symmetry; exact Hlen|]); repeat split.
Qed.

(** X2: [push_span] on a history whose [children] is a tuple (as it is by
    default and after every push) returns a history of which [children] is
    the tuple extended by the span: its encoding has the encoding of the
    span added at the end of "children" and nothing else changed, and the
    history is finished or not as before.  On a history whose [children]
    is a list (as the field is annotated) the concatenation with a tuple
    raises a [TypeError]. *)
Theorem history_push_span_as_json (h : TestHistory.t) (s : TestSpan.t)
    (r : Instant) :
  match TestHistory.children h with
  | PyTuple items =>
      exists (h' : TestHistory.t) (j e j' : JsonValue),
        TestHistory.push_span h s = Ok h' /\
        TestHistory.children h' = PyTuple (items ++ [s]) /\
        TestHistory.as_json h (Some r) = Ok j /\
        TestSpan.as_json s (Some r) = Ok e /\
        TestHistory.as_json h' (Some r) = Ok j' /\
        json_list "children" j' = json_list "children" j ++ [e] /\
        json_keys j' = json_keys j /\
        json_get "section" j' = json_get "section" j /\
        json_get "start_at" j' = json_get "start_at" j /\
        json_get "end_at" j' = json_get "end_at" j /\
        json_get "duration" j' = json_get "duration" j /\
        TestHistory.is_finished h' = TestHistory.is_finished h
  | PyList _ =>
      TestHistory.push_span h s = Raise (TypeError concat_list_tuple_message)
  end.
Proof.
  destruct h as [st en dur [items|items]];
    cbn [TestHistory.children]; [|reflexivity].
  destruct (mapR_ok (fun span => TestSpan.as_json span (Some r)) items)
    as (spans & Hspans & _).
  { intros s' _. apply span_as_json_ok. }
  destruct (span_as_json_ok r s) as [e He].
  exists (TestHistory.mk st en dur (PyTuple (items ++ [s]))).
  unfold TestHistory.push_span, TestHistory.as_json.
  cbn [TestHistory.children TestHistory.start_at TestHistory.end_at
       TestHistory.duration seq_add_tuple1 seq_items bindR].
  rewrite mapR_app, Hspans. cbn [mapR bindR]. rewrite He. cbn [bindR].
  destruct st as [st|], en as [en|], dur as [dur|]; simpl;
    eexists; exists e; eexists;
    (split; [reflexivity|]); (split; [reflexivity|]);
    (split; [reflexivity|]); (split; [reflexivity|]);
    (split; [reflexivity|]); repeat split.
Qed.

(** X16: without a run start, a span is encoded exactly when it carries no
    instant, and its encoding is then the one every run start gives; a span
    with a [start_at] or an [end_at] makes the encoder raise. *)
Theorem span_as_json_no_run_start (s : TestSpan.t) :
  match TestSpan.start_at s, TestSpan.end_at s with
  | None, None =>
      exists j : JsonValue,
        forall o : option Instant, TestSpan.as_json s o = Ok j
  | _, _ => TestSpan.as_json s None = Raise OperandError
  end.
Proof.
  destruct s as [sec dur [st|] [en|] [det|]]; simpl;
    try reflexivity; eexists; intros o; reflexivity.
Qed.

(** ** Tests *)

Lemma tags_size_test (tags : gmap string string) :
  (0 <? size tags)%nat = if decide (tags = ∅) then false else true.
Proof.
  destruct (decide (tags = ∅)) as [->|Hne]; [reflexivity|].
  apply Nat.ltb_lt. apply map_size_non_empty_iff in Hne. lia.
Qed.

(** X13: with a run start, the dictionary of a test holds the keys "id",
    "scope", "name", "location", "file_name", "history", then "tags",
    "result", "failure_reason" and "failure_expanded" when they apply, in
    this order, each once and no other; "id" is the text of the UUID and
    "history" is the encoded history. *)
Theorem data_as_json_keys (t : TestData.t) (r : Instant) :
  exists j hist : JsonValue,
    TestData.as_json t (Some r) = Ok j /\
    TestHistory.as_json (TestData.history t) (Some r) = Ok hist /\
    json_keys j = data_keys t /\
    NoDup (json_keys j) /\
    json_get "id" j = Some (JStr (uuid_str (TestData.id t))) /\
    json_get "scope" j = Some (JStr (TestData.scope t)) /\
    json_get "name" j = Some (JStr (TestData.name t)) /\
    json_get "history" j = Some hist.
Proof.
  unfold TestData.as_json, data_keys.
  destruct (history_as_json_ok r (TestData.history t)) as [hist ->].
  cbn [bindR]. rewrite tags_size_test.
  destruct t as [uuid scope name h loc file tags res]. simpl.
  destruct (decide (tags = ∅));
    destruct res as [[|[reason|] [expanded|]|]|];
    eexists; exists hist; (split; [reflexivity|]); (split; [reflexivity|]);
    (split; [reflexivity|]);
    (split; [apply (bool_decide_unpack _); vm_compute; reflexivity|]);
    repeat split.
Qed.

(** X3: a test built by [TestData.start] and then finished: the two
    operations read the clock once each and raise nothing; the test is
    finished, has no tag and no result, and its encoded history holds the
    two readings as offsets from the run start and their difference as
    duration. *)
Theorem start_finish_as_json (uuid : UUID) (scope name : string)
    (loc file : option string) (w : World) (r : Instant) :
  let c0 := clock w (reads w) in
  let c1 := clock w (S (reads w)) in
  exists (t : TestData.t) (j : JsonValue),
    (let! t0 := TestData.start uuid scope name loc file in TestData.finish t0) w
      = (Ok t, tick (tick w)) /\
    TestData.is_finished t = true /\
    TestData.tags t = ∅ /\
    TestData.result t = None /\
    TestData.as_json t (Some r) = Ok j /\
    json_keys j = ["id"; "scope"; "name"; "location"; "file_name"; "history"] /\
    json_get "history" j
      = Some (JDict [("section", JStr "top");
                     ("children", JList []);
                     ("start_at", offset_seconds r c0);
                     ("end_at", offset_seconds r c1);
                     ("duration", JNum (total_seconds (c1 - c0)))]).
Proof.
  intros c0 c1. do 2 eexists. split; [reflexivity|]. repeat split.
Qed.

(** X4: [passed()], [failed()] and [skipped()] overwrite the result: of two
    marks the later one stands; a mark does not finish the test and touches
    neither the history nor the tags; the encoding of a test marked twice
    shows the later result only, without the failure fields of an earlier
    Failed. *)
Theorem mark_last_wins (t : TestData.t) (res1 res2 : TestResult) (r : Instant) :
  mark res2 (mark res1 t) = mark res2 t /\
  TestData.result (mark res2 t) = Some res2 /\
  TestData.is_finished (mark res2 t) = TestData.is_finished t /\
  TestData.history (mark res2 t) = TestData.history t /\
  TestData.tags (mark res2 t) = TestData.tags t /\
  exists j : JsonValue,
    TestData.as_json (mark res2 (mark res1 t)) (Some r) = Ok j /\
    json_get "result" j = Some (JStr (result_name res2)) /\
    json_get "failure_reason" j = JStr <$> failure_reason_of (Some res2) /\
    json_get "failure_expanded" j = JExpanded <$> failure_expanded_of (Some res2).
Proof.
  assert (Hlast : mark res2 (mark res1 t) = mark res2 t)
    by (destruct res1, res2; reflexivity).
  split; [exact Hlast|]. rewrite Hlast.
  split; [destruct res2; reflexivity|].
  split; [destruct res2; reflexivity|].
  split; [destruct res2; reflexivity|].
  split; [destruct res2; reflexivity|].
  unfold TestData.as_json.
  assert (Hh : TestData.history (mark res2 t) = TestData.history t)
    by (destruct res2; reflexivity).
  rewrite Hh.
  destruct (history_as_json_ok r (TestData.history t)) as [hist ->].
  cbn [bindR].
  destruct t as [uuid scope name h loc file tags res].
  destruct res2 as [|[reason|] [expanded|]|]; simpl;
    destruct (0 <? size tags)%nat; eexists; repeat split.
Qed.

(** X5: a test that is marked but not finished is dropped all the same:
    pushed onto a payload, it leaves the serialized payload as it was and
    makes [as_json()] log its warning, once. *)
Theorem marked_unfinished_dropped (p : Payload.t) (t : TestData.t)
    (res : TestResult) (w : World) :
  TestData.is_finished t = false ->
  fst (Payload.as_json (Payload.push_test_data p (mark res t)) w)
    = fst (Payload.as_json p w) /\
  warnings (snd (Payload.as_json (Payload.push_test_data p (mark res t)) w))
    = warnings w ++ [Payload.unfinished_warning].
Proof.
  intros Hfin.
  assert (Hfin' : TestData.is_finished (mark res t) = false)
    by (destruct res; exact Hfin).
  unfold Payload.as_json, Payload.push_test_data.
  cbn [Payload.data Payload.with_data Payload.started_at Payload.run_env].
  rewrite !filter_length_lt, existsb_app. cbn [existsb].
  rewrite Hfin'. cbn [negb orb]. rewrite orb_true_r.
  rewrite List.filter_app. cbn [List.filter]. rewrite Hfin', app_nil_r.
  unfold bindM, lift, ret, logger_warning.
  destruct (existsb _ (Payload.data p));
    destruct (mapR _ (List.filter TestData.is_finished (Payload.data p)));
    split; reflexivity.
Qed.

Lemma marked_unfinished_dropped_witness :
  TestData.is_finished unfinished_test = false /\
  fst (Payload.as_json
         (Payload.push_test_data two_test_payload (mark TestResultPassed unfinished_test))
         sample_world)
    = fst (Payload.as_json two_test_payload sample_world) /\
  warnings (snd (Payload.as_json
                   (Payload.push_test_data two_test_payload
                      (mark TestResultPassed unfinished_test))
                   sample_world))
    = warnings sample_world ++ [Payload.unfinished_warning].
Proof.
  split; [reflexivity|].
  apply (marked_unfinished_dropped two_test_payload unfinished_test
           TestResultPassed sample_world).
  reflexivity.
Defined.

(** ** Tags *)

(** X6: tagging composes as updates of one dictionary: on the same key the
    later value stands (and tagging twice with the same value is tagging
    once); on different keys the order of the two calls does not matter. *)
Theorem tag_execution_compose (t : TestData.t) (k1 k2 v1 v2 : string) :
  (let? t1 := tag k1 v1 t in tag k1 v2 t1) = tag k1 v2 t /\
  (let? t1 := tag k1 v1 t in tag k1 v1 t1) = tag k1 v1 t /\
  (k1 <> k2 ->
   (let? t1 := tag k1 v1 t in tag k2 v2 t1)
     = (let? t1 := tag k2 v2 t in tag k1 v1 t1)).
Proof.
  unfold tag, TestData.tag_execution. cbn.
  split; [|split].
  - rewrite insert_insert_eq. reflexivity.
  - rewrite insert_insert_eq. reflexivity.
  - intros Hne. rewrite (insert_insert_ne (TestData.tags t) k1 k2 v1 v2 Hne).
    reflexivity.
Qed.

Lemma tag_execution_compose_witness :
  "suite" <> "owner" /\
  (let? t1 := tag "suite" "unit" successful_test in tag "owner" "core" t1)
    = (let? t1 := tag "owner" "core" successful_test in tag "suite" "unit" t1).
Proof.
  split; [discriminate|].
  apply (proj2 (proj2 (tag_execution_compose successful_test
                         "suite" "owner" "unit" "core"))).
  discriminate.
Defined.

(** X7: after a tag was set, the tags are not empty, so that the encoded
    test always holds the key "tags", bound to the updated tags, in which
    the key has its new value. *)
Theorem tag_execution_as_json (t : TestData.t) (k v : string) (r : Instant) :
  exists (t' : TestData.t) (j : JsonValue),
    tag k v t = Ok t' /\
    TestData.tags t' !! k = Some v /\
    TestData.as_json t' (Some r) = Ok j /\
    In "tags" (json_keys j) /\
    json_get "tags" j = Some (JTags (<[k := v]> (TestData.tags t))).
Proof.
  destruct (history_as_json_ok r (TestData.history t)) as [hist Hhist].
  assert (Hsize : (0 <? size (<[k := v]> (TestData.tags t)))%nat = true).
  { rewrite tags_size_test.
    destruct (decide (<[k := v]> (TestData.tags t) = ∅)) as [Hempty|_];
      [|reflexivity].
    exfalso. exact (insert_non_empty _ _ _ Hempty). }
  destruct t as [uuid scope name h loc file tags res].
  unfold tag, TestData.tag_execution, TestData.as_json in *.
  cbn in Hhist, Hsize.
  destruct res as [[|[reason|] [expanded|]|]|];
    eexists; eexists; (split; [reflexivity|]);
    (split; [apply lookup_insert_eq|]); cbn; rewrite Hhist, Hsize; cbn;
    (split; [reflexivity|]); simpl; tauto.
Qed.

(** ** The life of a payload *)

(** X14: tests pushed onto a payload are kept in the order of the pushes,
    after the tests that were there; pushing changes neither the run
    environment nor the run instants. *)
Theorem push_test_data_order (reports : list TestData.t) (p : Payload.t) :
  Payload.data (foldl Payload.push_test_data p reports)
    = Payload.data p ++ reports /\
  batch_of p (foldl Payload.push_test_data p reports) /\
  Payload.is_started (foldl Payload.push_test_data p reports)
    = Payload.is_started p.
Proof.
  revert p. induction reports as [|t reports IH]; intros p; simpl.
  - rewrite app_nil_r. repeat split.
  - destruct (IH (Payload.push_test_data p t)) as (Hdata & (He & Hs & Hf) & Hst).
    rewrite Hdata, Hst. cbn [Payload.push_test_data Payload.with_data Payload.data].
    rewrite <- app_assoc. split; [reflexivity|].
    split; [split; [exact He | split; [exact Hs | exact Hf]] | reflexivity].
Qed.

(** X15: [started()] stamps the payload with the clock and keeps its tests;
    unlike [finish()] it is not guarded: a second call stamps the payload
    again, with the later reading; a fresh payload is not started and has no
    test; starting and pushing commute. *)
Theorem started_restamps (p : Payload.t) (t : TestData.t) (w : World) :
  Payload.started p w
    = (Ok (Payload.mk (Payload.run_env p) (Payload.data p)
             (Some (clock w (reads w))) (Payload.finished_at p)),
       tick w) /\
  (let! p1 := Payload.started p in Payload.started p1) w
    = (Ok (Payload.mk (Payload.run_env p) (Payload.data p)
             (Some (clock w (S (reads w)))) (Payload.finished_at p)),
       tick (tick w)) /\
  Payload.started (Payload.push_test_data p t) w
    = (let! p1 := Payload.started p in ret (Payload.push_test_data p1 t)) w /\
  Payload.is_started (Payload.init (Payload.run_env p)) = false /\
  Payload.data (Payload.init (Payload.run_env p)) = [].
Proof. repeat split. Qed.

(** ** Batches: which entries go where *)

Lemma batch_count_small (n : nat) (b : Z) :
  1 <= b -> Z.of_nat n <= b -> batch_count n b = 1%nat.
Proof.
  intros Hb Hn. unfold batch_count.
  destruct (Z.eq_dec (Z.of_nat n) 0) as [H0|H0].
  - rewrite H0, (ceil_div_zero b Hb). reflexivity.
  - rewrite (ceil_div_small b Hb) by lia. reflexivity.
Qed.

Lemma batch_count_step (n : nat) (b : Z) :
  1 <= b -> b < Z.of_nat n ->
  batch_count n b = S (batch_count (n - Z.to_nat b) b).
Proof.
  intros Hb Hn. unfold batch_count.
  rewrite (ceil_div_step b Hb (Z.of_nat n) Hn).
  replace (Z.of_nat (n - Z.to_nat b)) with (Z.of_nat n - b) by lia.
  pose proof (ceil_div_pos b Hb (Z.of_nat n - b)). lia.
Qed.

Lemma into_batches_rec_layout (self : Payload.t) (b : Z) (fuel : nat) :
  1 <= b ->
  forall (data : list TestData.t) (acc : list Payload.t),
    (length data < fuel)%nat ->
    Payload.into_batches_rec fuel self data acc b
      = Some (acc ++ map (fun i => Payload.with_data self
                                     (firstn (Z.to_nat b)
                                        (skipn (i * Z.to_nat b) data)))
                         (seq 0 (batch_count (length data) b))).
Proof.
  intros Hb. induction fuel as [|fuel IH]; intros data acc Hfuel; [lia|].
  simpl. destruct (Z.leb_spec (Z.of_nat (length data)) b) as [Hsmall|Hbig].
  - rewrite (batch_count_small _ _ Hb Hsmall).
    cbn [seq map Nat.mul]. rewrite skipn_O.
    rewrite firstn_all2 by lia. reflexivity.
  - unfold slice_to, slice_from.
    rewrite (slice_bound_inside b Hb data Hbig).
    rewrite IH by (rewrite length_skipn; lia).
    rewrite (batch_count_step _ _ Hb Hbig), length_skipn.
    rewrite <- app_assoc. cbn [seq map app Nat.mul]. rewrite skipn_O.
    do 3 f_equal.
    rewrite <- seq_shift, map_map. apply map_ext. intros i.
    rewrite skipn_skipn. do 3 f_equal. lia.
Qed.

(** X9: for a batch size [b >= 1], the batches are cut at the multiples of
    [b]: there are [max(1, ceil(N / b))] of them and the batch of rank [i]
    holds the entries of ranks [i * b] to [i * b + b - 1], as far as there
    are some; the depth allowed to the recursion, once sufficient, has no
    part in the result. *)
Theorem into_batches_layout (fuel : nat) (p : Payload.t) (b : Z) :
  1 <= b ->
  (length (Payload.data p) < fuel)%nat ->
  Payload.into_batches fuel p b
    = Some (map (batch_at p b) (seq 0 (batch_count (length (Payload.data p)) b))).
Proof.
  intros Hb Hfuel. unfold Payload.into_batches.
  rewrite (into_batches_rec_layout p b fuel Hb _ [] Hfuel). reflexivity.
Qed.

Lemma into_batches_layout_witness :
  1 <= 2 /\ (length (Payload.data sample_payload) < 4)%nat /\
  Payload.into_batches 4 sample_payload 2
    = Some (map (batch_at sample_payload 2)
              (seq 0 (batch_count (length (Payload.data sample_payload)) 2))).
Proof.
  split; [lia|]. split; [simpl; lia|].
  apply (into_batches_layout 4 sample_payload 2); [lia | simpl; lia].
Defined.

Lemma batch_count_bound (n : nat) (b : Z) (i : nat) :
  1 <= b -> (0 < n)%nat -> (i < batch_count n b)%nat ->
  (i * Z.to_nat b < n)%nat.
Proof.
  intros Hb Hn Hi. unfold batch_count, ceil_div in Hi.
  pose proof (Z.mul_div_le (Z.of_nat n + b - 1) b ltac:(lia)) as Hdiv.
  assert (Hpos : 1 <= (Z.of_nat n + b - 1) / b)
    by (apply Z.div_le_lower_bound; lia).
  assert (Hi' : Z.of_nat i + 1 <= (Z.of_nat n + b - 1) / b) by lia.
  assert (Hmul : b * (Z.of_nat i + 1) <= b * ((Z.of_nat n + b - 1) / b))
    by (apply Z.mul_le_mono_nonneg_l; lia).
  apply Nat2Z.inj_lt. rewrite Nat2Z.inj_mul, Z2Nat.id by lia. nia.
Qed.

(** X10: for a batch size [b >= 1] and a payload that holds entries, no
    batch is empty: the batch of rank [i] holds [min(b, N - i * b)] entries,
    which is at least one. *)
Theorem into_batches_sizes (fuel : nat) (p : Payload.t) (b : Z)
    (bs : list Payload.t) (i : nat) (q : Payload.t) :
  1 <= b ->
  Payload.data p <> [] ->
  (length (Payload.data p) < fuel)%nat ->
  Payload.into_batches fuel p b = Some bs ->
  bs !! i = Some q ->
  length (Payload.data q)
    = Nat.min (Z.to_nat b) (length (Payload.data p) - i * Z.to_nat b) /\
  (1 <= length (Payload.data q))%nat.
Proof.
  intros Hb Hdata Hfuel Hrun Hq.
  rewrite (into_batches_layout fuel p b Hb Hfuel) in Hrun.
  injection Hrun as <-.
  assert (Hlen : (0 < length (Payload.data p))%nat).
  { destruct (Payload.data p); [congruence | simpl; lia]. }
  assert (Hi : (i < batch_count (length (Payload.data p)) b)%nat).
  { apply lookup_lt_Some in Hq. rewrite length_map, length_seq in Hq. exact Hq. }
  assert (Hq' : q = batch_at p b i).
  { apply list_lookup_fmap_Some in Hq.
    destruct Hq as (j & -> & Hj). apply lookup_seq in Hj.
    destruct Hj as [-> _]. reflexivity. }
  subst q. unfold batch_at. cbn [Payload.with_data Payload.data].
  rewrite length_firstn, length_skipn.
  pose proof (batch_count_bound _ b i Hb Hlen Hi). lia.
Qed.

Lemma into_batches_sizes_witness :
  1 <= 2 /\ Payload.data sample_payload <> [] /\
  (length (Payload.data sample_payload) < 4)%nat /\
  length (Payload.data (Payload.with_data sample_payload [unfinished_test]))
    = Nat.min (Z.to_nat 2) (length (Payload.data sample_payload) - 1 * Z.to_nat 2) /\
  (1 <= length (Payload.data (Payload.with_data sample_payload [unfinished_test])))%nat.
Proof.
  split; [lia|]. split; [discriminate|]. split; [simpl; lia|].
  apply (into_batches_sizes 4 sample_payload 2
           [Payload.with_data sample_payload [successful_test; failed_test];
            Payload.with_data sample_payload [unfinished_test]] 1);
    [lia | discriminate | simpl; lia | reflexivity | reflexivity].
Defined.

Lemma into_batches_rec_negative (self : Payload.t) (b : Z) (fuel : nat) :
  b < 0 ->
  forall (data : list TestData.t) (acc : list Payload.t),
    Payload.into_batches_rec fuel self data acc b = None.
Proof.
  intros Hb. induction fuel as [|fuel IH]; intros data acc; [reflexivity|].
  simpl. destruct (Z.leb_spec (Z.of_nat (length data)) b); [lia|]. apply IH.
Qed.

(** X8: [into_batches] comes to an end exactly for a batch size of at least
    1, or for the batch size 0 on a payload without entries; for any other
    batch size the recursion goes on whatever depth it is allowed. *)
Theorem into_batches_returns_iff (p : Payload.t) (b : Z) :
  (exists (fuel : nat) (bs : list Payload.t),
     Payload.into_batches fuel p b = Some bs)
  <-> (1 <= b \/ (b = 0 /\ Payload.data p = [])).
Proof.
  split.
  - intros (fuel & bs & Hrun). unfold Payload.into_batches in Hrun.
    destruct (Z.le_gt_cases 1 b) as [Hb|Hb]; [left; exact Hb|]. right.
    destruct (Z.eq_dec b 0) as [H0|H0].
    + split; [exact H0|].
      destruct (Payload.data p) as [|td tds] eqn:Hdata; [reflexivity|].
      rewrite (into_batches_rec_diverges p b fuel Hb (td :: tds) []) in Hrun
        by discriminate.
      discriminate.
    + rewrite (into_batches_rec_negative p b fuel) in Hrun by lia.
      discriminate.
  - intros [Hb | [-> Hdata]].
    + exists (S (length (Payload.data p))).
      destruct (into_batches_rec_spec p b Hb (S (length (Payload.data p)))
                  (Payload.data p) []) as (bs & Hrun & _); [lia|].
      exists bs. exact Hrun.
    + exists 1%nat, [p]. unfold Payload.into_batches. rewrite Hdata. simpl.
      destruct p as [e d s f]. simpl in Hdata. subst d. reflexivity.
Qed.

Lemma into_batches_returns_iff_witness :
  (1 <= 2 \/ (2 = 0 /\ Payload.data sample_payload = [])) /\
  exists (fuel : nat) (bs : list Payload.t),
    Payload.into_batches fuel sample_payload 2 = Some bs.
Proof.
  split; [left; lia|].
  apply (proj2 (into_batches_returns_iff sample_payload 2)). left. lia.
Defined.

Lemma into_batches_rec_singletons (self : Payload.t) (fuel : nat) :
  forall (data : list TestData.t) (acc : list Payload.t),
    data <> [] ->
    (length data < fuel)%nat ->
    Payload.into_batches_rec fuel self data acc 1
      = Some (acc ++ map (fun td => Payload.with_data self [td]) data).
Proof.
  induction fuel as [|fuel IH]; intros data acc Hdata Hfuel; [lia|].
  destruct data as [|td [|td' tds]]; [congruence | reflexivity |].
  cbn [Payload.into_batches_rec].
  destruct (Z.leb_spec (Z.of_nat (length (td :: td' :: tds))) 1) as [H|H];
    [simpl length in H; lia|].
  unfold slice_to, slice_from.
  rewrite (slice_bound_inside 1 ltac:(lia) _ H).
  change (Z.to_nat 1) with 1%nat.
  change (firstn 1 (td :: td' :: tds)) with [td].
  change (skipn 1 (td :: td' :: tds)) with (td' :: tds).
  rewrite IH by (simpl in *; first [discriminate | lia]).
  rewrite <- app_assoc. reflexivity.
Qed.

(** X11: with the batch size 1 a payload that holds entries is cut into one
    batch per entry, in the order of the entries. *)
Theorem into_batches_singletons (fuel : nat) (p : Payload.t) :
  Payload.data p <> [] ->
  (length (Payload.data p) < fuel)%nat ->
  Payload.into_batches fuel p 1
    = Some (map (fun td => Payload.with_data p [td]) (Payload.data p)).
Proof.
  intros Hdata Hfuel. unfold Payload.into_batches.
  rewrite (into_batches_rec_singletons p fuel _ [] Hdata Hfuel). reflexivity.
Qed.

Lemma into_batches_singletons_witness :
  Payload.data two_test_payload <> [] /\
  (length (Payload.data two_test_payload) < 3)%nat /\
  Payload.into_batches 3 two_test_payload 1
    = Some (map (fun td => Payload.with_data two_test_payload [td])
              (Payload.data two_test_payload)).
Proof.
  split; [discriminate|]. split; [simpl; lia|].
  apply (into_batches_singletons 3 two_test_payload); [discriminate | simpl; lia].
Defined.

(** ** Batches: what is sent *)

Lemma filter_concat {A : Type} (f : A -> bool) (ls : list (list A)) :
  List.filter f (concat ls) = concat (map (List.filter f) ls).
Proof.
  induction ls as [|l ls IH]; [reflexivity|].
  simpl. rewrite List.filter_app, IH. reflexivity.
Qed.

Lemma mapR_concat {A B : Type} (f : A -> Result B) (ls : list (list A))
    (es : list (list B)) :
  Forall2 (fun l e => mapR f l = Ok e) ls es ->
  mapR f (concat ls) = Ok (concat es).
Proof.
  induction 1 as [|l e ls es Hl _ IH]; [reflexivity|].
  simpl. rewrite mapR_app, Hl, IH. reflexivity.
Qed.

Lemma payload_as_json_fst (p : Payload.t) (encoded : list JsonValue) (w : World) :
  mapR (fun td => TestData.as_json td (Payload.started_at p))
    (List.filter TestData.is_finished (Payload.data p)) = Ok encoded ->
  fst (Payload.as_json p w)
    = Ok (JDict [("format", JStr "json");
                 ("run_env", RunEnv_as_json (Payload.run_env p));
                 ("data", JList encoded)]).
Proof.
  intros Hmap. unfold Payload.as_json. unfold bindM at 1.
  destruct (length _ <? length _)%nat;
    [unfold logger_warning | unfold ret at 1]; cbv beta iota;
    unfold bindM at 1; unfold lift at 1; rewrite Hmap; reflexivity.
Qed.

(** X12: cutting a started payload into batches and serializing each batch
    sends what serializing the whole payload would: every batch is
    serialized without an exception, with the "format" and the "run_env" of
    the whole, and the "data" of the batches, put end to end in the order
    of the batches, are the "data" of the whole. *)
Theorem batches_as_json_data (fuel : nat) (p : Payload.t) (b : Z) (w : World)
    (r : Instant) :
  1 <= b ->
  (length (Payload.data p) < fuel)%nat ->
  Payload.started_at p = Some r ->
  exists (bs : list Payload.t) (j : JsonValue) (js : list JsonValue),
    Payload.into_batches fuel p b = Some bs /\
    fst (Payload.as_json p w) = Ok j /\
    Forall2 (fun q jq => forall w' : World, fst (Payload.as_json q w') = Ok jq)
      bs js /\
    concat (map (json_list "data") js) = json_list "data" j /\
    Forall (fun jq => json_get "format" jq = json_get "format" j /\
                      json_get "run_env" jq = json_get "run_env" j) js.
Proof.
  intros Hb Hfuel Hstart.
  destruct (into_batches_rec_spec p b Hb fuel (Payload.data p) [] Hfuel)
    as (bs & Hrun & Hcat & Hall & _).
  set (enc := fun td => TestData.as_json td (Some r)).
  set (wrap := fun e : list JsonValue =>
                 JDict [("format", JStr "json");
                        ("run_env", RunEnv_as_json (Payload.run_env p));
                        ("data", JList e)]).
  assert (Hencs : exists encs : list (list JsonValue),
            Forall2 (fun q e => mapR enc (List.filter TestData.is_finished
                                            (Payload.data q)) = Ok e) bs encs).
  { clear. induction bs as [|q bs [encs IH]].
    - exists []. constructor.
    - destruct (mapR_ok enc (List.filter TestData.is_finished (Payload.data q)))
        as (e & He & _).
      { intros td _. apply data_as_json_ok. }
      exists (e :: encs). constructor; assumption. }
  destruct Hencs as [encs Hencs].
  exists bs, (wrap (concat encs)), (map wrap encs).
  split; [exact Hrun|]. split; [|split; [|split]].
  - apply payload_as_json_fst. rewrite Hstart, <- Hcat, filter_concat.
    apply mapR_concat. clear -Hencs.
    induction Hencs; simpl; constructor; assumption.
  - clear -Hencs Hall Hstart.
    induction Hencs as [|q e bs encs Hq _ IH]; simpl; [constructor|].
    inversion Hall as [|? ? [_ (Henv & Hst & _)] Hall']; subst.
    constructor; [|apply IH; exact Hall'].
    intros w'. subst wrap. cbv beta. rewrite <- Henv.
    apply payload_as_json_fst. rewrite Hst, Hstart. exact Hq.
  - rewrite map_map.
    change (json_list "data" (wrap (concat encs))) with (concat encs).
    f_equal. clear. induction encs as [|e encs IH]; [reflexivity|].
    cbn [map]. rewrite IH. reflexivity.
  - clear. induction encs as [|e encs IH]; simpl; constructor;
      [split; reflexivity | exact IH].
Qed.

Lemma batches_as_json_data_witness :
  1 <= 1 /\
  (length (Payload.data two_test_payload) < 3)%nat /\
  Payload.started_at two_test_payload = Some 0 /\
  exists (bs : list Payload.t) (j : JsonValue) (js : list JsonValue),
    Payload.into_batches 3 two_test_payload 1 = Some bs /\
    fst (Payload.as_json two_test_payload sample_world) = Ok j /\
    Forall2 (fun q jq => forall w' : World, fst (Payload.as_json q w') = Ok jq)
      bs js /\
    concat (map (json_list "data") js) = json_list "data" j /\
    Forall (fun jq => json_get "format" jq = json_get "format" j /\
                      json_get "run_env" jq = json_get "run_env" j) js.
Proof.
  split; [lia|]. split; [simpl; lia|]. split; [reflexivity|].
  apply (batches_as_json_data 3 two_test_payload 1 sample_world 0);
    [lia | simpl; lia | reflexivity].
Defined.

(** X18: a batch is stable under batching: cut again with the same batch
    size, it comes back alone and unchanged, after a single call. *)
Theorem into_batches_stable (fuel : nat) (p : Payload.t) (b : Z)
    (bs : list Payload.t) (q : Payload.t) :
  1 <= b ->
  (length (Payload.data p) < fuel)%nat ->
  Payload.into_batches fuel p b = Some bs ->
  In q bs ->
  Payload.into_batches 1 q b = Some [q].
Proof.
  intros Hb Hfuel Hrun Hq.
  destruct (into_batches_rec_spec p b Hb fuel (Payload.data p) [] Hfuel)
    as (bs' & Hrun' & _ & Hall & _).
  unfold Payload.into_batches in Hrun. rewrite Hrun' in Hrun.
  injection Hrun as <-.
  destruct (proj1 (List.Forall_forall _ _) Hall q Hq) as [Hle _].
  unfold Payload.into_batches. cbn [Payload.into_batches_rec].
  destruct (Z.leb_spec (Z.of_nat (length (Payload.data q))) b); [|lia].
  destruct q; reflexivity.
Qed.

Lemma into_batches_stable_witness :
  1 <= 2 /\
  (length (Payload.data sample_payload) < 4)%nat /\
  Payload.into_batches 4 sample_payload 2
    = Some [Payload.with_data sample_payload [successful_test; failed_test];
            Payload.with_data sample_payload [unfinished_test]] /\
  Payload.into_batches 1 (Payload.with_data sample_payload [unfinished_test]) 2
    = Some [Payload.with_data sample_payload [unfinished_test]].
Proof.
  split; [lia|]. split; [simpl; lia|]. split; [reflexivity|].
  apply (into_batches_stable 4 sample_payload 2
           [Payload.with_data sample_payload [successful_test; failed_test];
            Payload.with_data sample_payload [unfinished_test]]);
    [lia | simpl; lia | reflexivity | right; left; reflexivity].
Defined.

(** X17: serializing a payload reads no clock and sends nothing, whether it
    returns or raises: of the world only the log can change, by the one
    warning of the dropped entries. *)
Theorem payload_as_json_effects (p : Payload.t) (w : World) :
  clock (snd (Payload.as_json p w)) = clock w /\
  reads (snd (Payload.as_json p w)) = reads w /\
  posts (snd (Payload.as_json p w)) = posts w /\
  transport (snd (Payload.as_json p w)) = transport w /\
  warnings (snd (Payload.as_json p w))
    = warnings w ++ (if dropped p then [Payload.unfinished_warning] else []).
Proof.
  unfold Payload.as_json, dropped. rewrite filter_length_lt.
  unfold bindM, lift, ret, logger_warning.
  destruct (existsb _ (Payload.data p));
    destruct (mapR _ (List.filter TestData.is_finished (Payload.data p)));
    cbn; rewrite ?app_nil_r; repeat split.
Qed.
